(** * Canadian Dental Care Plan: the apply wizard and the confirmation-code mock

    A shallow embedding of the route helpers and route actions of the
    frontend's "apply" wizard
    (app/route-helpers/apply-adult-child-route-helpers.server.ts,
    app/routes/$lang/_public/apply/$id/adult/review-information.tsx,
    app/routes/$lang/_public/apply/$id/child/review-child-information.tsx,
    app/routes/$lang/_public/apply/$id/child/contact-information.tsx) and of
    the subscription API mock's code-verification handler; further on, of
    the mock's other handlers with the subscription service in front of
    them, of the communication-preference step of the child flow and the
    zod schemas of the two forms, of the Redis session storage
    (app/services/session-service.server.ts), of the letters page
    (app/routes/_protected+/letters+/_index.tsx) and of the three routes of
    app/routes/_gcweb-app.update-info.tsx.

    Conventions.
    - A JavaScript object used as a record with optional properties
      (ApplyState, the Remix session, route params) is a finite map from
      property names; a property that is [undefined] is an absent key.
    - A function that may [throw] returns an [Outcome]; a route action, which
      also reads and writes the session and awaits external services, is a
      program [Prog] over the effects [Eff], run by [run] and, for two
      requests in flight at once, by [interleave].
    - A string is the sequence of its code units: [length] counts them.
    - [log.warn], [log.debug] and translations have no effect on any result
      and are left out. *)

From Stdlib Require Import ZArith Lia Ascii.
From stdpp Require Import base option list strings gmap fin_maps.

Local Open Scope string_scope.

(** ** Data model *)

(** ContactInformationState (apply-route-helpers.server.ts), the output type
    of the contact-information schema. *)
Record ContactInformationState := {
  phoneNumber : option string;
  phoneNumberAlt : option string;
  email : option string;
  confirmEmail : option string;
  mailingAddress : string;
  mailingApartment : option string;
  mailingCountry : string;
  mailingProvince : option string;
  mailingCity : string;
  mailingPostalCode : option string;
  copyMailingAddress : bool;
  homeAddress : option string;
  homeApartment : option string;
  homeCountry : option string;
  homeProvince : option string;
  homeCity : option string;
  homePostalCode : option string;
}.

(** CommunicationPreferencesState: the output type of the
    communication-preference schema. *)
Record CommunicationPreferencesState := {
  preferredLanguage : string;
  preferredMethod : string;
  cp_email : option string;
  cp_confirmEmail : option string;
}.

(** [submissionInfo = { confirmationCode, submittedOn }]. *)
Record SubmissionInfo := {
  confirmationCode : string;
  submittedOn : string;
}.

(** The value of one property of an ApplyState: a string ([id],
    [typeOfApplication], [dateOfBirth]), a boolean ([editMode],
    [taxFiling2023]), one of the step payloads above, or another object
    (the payloads no statement here looks into). *)
Inductive StateValue :=
| VString (s : string)
| VBool (b : bool)
| VContactInformation (c : ContactInformationState)
| VCommunicationPreferences (c : CommunicationPreferencesState)
| VSubmissionInfo (s : SubmissionInfo)
| VObject (fields : list (string * string)).

(** ApplyState, and a [Partial<ApplyState>]: property name to value. *)
Abbreviation ApplyState := (gmap string StateValue).

(** What a Remix session holds under a key: the CSRF token or the state of
    one application. *)
Inductive SessionValue :=
| SvString (s : string)
| SvApplyState (st : ApplyState).

Abbreviation Session := (gmap string SessionValue).

(** Route params ([params.lang], [params.id]). *)
Abbreviation Params := (gmap string string).

(** FormData: entries in submission order; [get] returns the first value of
    a name. *)
Abbreviation FormData := (list (string * string)).

Record Request := {
  request_pathname : string;      (* new URL(request.url).pathname *)
  request_formData : FormData;    (* await request.formData() *)
}.

(** Responses built by [redirect], [json] and [new Response]. *)
Inductive Response :=
| redirect (url : string)
| json (body : string)
| response (body : string) (status : Z).

(** What a helper or an action throws. *)
Inductive Exn :=
| ThrownResponse (r : Response)      (* throw redirect(..), throw new Response(..) *)
| ZodError                           (* schema.parse(..) on a value outside the schema *)
| NotFoundError                      (* no wizard state for this id (spec section 7) *)
| SubmissionError (e : string).      (* the submission service's call was rejected *)

Inductive Outcome (A : Type) :=
| Returned (a : A)
| Thrown (e : Exn).
Arguments Returned {A} a.
Arguments Thrown {A} e.

#[global] Instance Outcome_ret : MRet Outcome := @Returned.
#[global] Instance Outcome_bind : MBind Outcome := fun A B f o =>
  match o with
  | Returned a => f a
  | Thrown e => Thrown e
  end.

(** The environment read by [getEnv()]. *)
Record Env := {
  ENABLED_FEATURES : list string;
  COMMUNICATION_METHOD_EMAIL_ID : string;
}.

(** ** JavaScript primitives *)

(** [s.endsWith(suffix)]. *)
Definition endsWith (s suffix : string) : bool :=
  let n := String.length s in
  let m := String.length suffix in
  Nat.leb m n && String.eqb (String.substring (n - m) m s) suffix.

(** [xs.includes(x)] on an array of strings. *)
Definition includes (xs : list string) (x : string) : bool :=
  existsb (String.eqb x) xs.

(** Truthiness of a property that may be undefined. *)
Definition truthy (v : option StateValue) : bool :=
  match v with
  | None => false
  | Some (VString s) => negb (String.eqb s "")
  | Some (VBool b) => b
  | Some _ => true
  end.

(** Truthiness of an optional string. *)
Definition truthy_string (v : option string) : bool :=
  match v with
  | None => false
  | Some s => negb (String.eqb s "")
  end.

(** [x === undefined]. *)
Definition is_undefined {A} (v : option A) : bool :=
  match v with
  | None => true
  | Some _ => false
  end.

(** [state.typeOfApplication === t]. *)
Definition typeOfApplication_is (st : ApplyState) (t : string) : bool :=
  match st !! "typeOfApplication" with
  | Some (VString s) => String.eqb s t
  | _ => false
  end.

(** [formData.get(name)]: the first entry of that name, or null. *)
Fixpoint formData_get (fd : FormData) (name : string) : option string :=
  match fd with
  | [] => None
  | (k, v) :: rest => if String.eqb k name then Some v else formData_get rest name
  end.

(** ** Imports that are not part of the sources

    [getPathById] (~/utils/route-utils), [getEnv] (~/utils/env.server), the
    mapper to the submission payload, the decisions of the loaders of the
    adult and child flows, and the zod schema of the contact-information
    form with its external validators are taken as parameters. *)

(** The loaders of ~/route-helpers/apply-adult-route-helpers.server and
    ~/route-helpers/apply-child-route-helpers.server used by the routes. *)
Inductive Loader :=
| ApplyAdultStateForReview
| ApplyChildState
| ApplyChildStateForReview.

Class Imported := {
  BenefitApplicationRequest : Type;
  getPathById : string → Params → string;
  getEnv : Env;
  toBenefitApplicationRequestFromApplyAdultState :
    ApplyState → BenefitApplicationRequest;
  (* Navigation Guard: [Some url] redirects, [None] lets the state through *)
  authorize : Loader → Params → Request → ApplyState → option string;
  (* personalInformationSchema.safeParse: the flattened errors or the data *)
  personalInformationSchema :
    ContactInformationState → string + ContactInformationState;
}.

Section RouteHelpers.
Context {imports : Imported}.

(** Modelled from the spec: [getSessionName] and [loadApplyState] of
    ~/route-helpers/apply-route-helpers.server are not in the sources.
    Section 4.3: "load(sessionId) -> WizardState - fails with NotFoundError
    if no state exists"; the state of application [params.id] is kept in the
    session under a key derived from that id. *)
Definition getSessionName (id : string) : string := "apply-flow-" ++ id.

(** Modelled from the spec: [loadApplyState] (see [getSessionName]); a
    missing id or a session without a state for it is the spec's
    NotFoundError. *)
Definition loadApplyState (params : Params) (session : Session) : Outcome ApplyState :=
  match params !! "id" with
  | None => Thrown NotFoundError
  | Some id =>
      match session !! getSessionName id with
      | Some (SvApplyState st) => Returned st
      | _ => Thrown NotFoundError
      end
  end.

(** apply-adult-child-route-helpers.server.ts, [loadApplyAdultChildState].
    The second [if] only logs: its [throw] is commented out in the source. *)
Definition loadApplyAdultChildState (params : Params) (request : Request)
    (session : Session) : Outcome ApplyState :=
  let pathname := request_pathname request in
  applyState ← loadApplyState params session;
  if negb (typeOfApplication_is applyState "adult-child") then
    Thrown (ThrownResponse (redirect
      (getPathById "$lang+/_public+/apply+/$id+/type-application" params)))
  else
  let confirmationRouteUrl :=
    getPathById "$lang+/_public+/apply+/$id+/adult-child/confirmation" params in
  if truthy (applyState !! "submissionInfo")
     && negb (endsWith pathname confirmationRouteUrl) then
    Thrown (ThrownResponse (redirect confirmationRouteUrl))
  else
  let termsAndConditionsRouteUrl :=
    getPathById "$lang+/_public+/apply+/$id+/terms-and-conditions" params in
  if negb (truthy (applyState !! "submissionInfo"))
     && endsWith pathname confirmationRouteUrl then
    (* log.warn('Redirecting user to ...'); //throw redirect(termsAndConditionsRouteUrl); *)
    Returned applyState
  else
  Returned applyState.

(** [validateApplyAdultChildStateForReview]: returns normally or throws a
    redirect. The checks from applicantInformation on are commented out in
    the source ("TODO: Need to create routes for adult-child flow"). *)
Definition validateApplyAdultChildStateForReview (params : Params)
    (state : ApplyState) : Outcome unit :=
  if is_undefined (state !! "typeOfApplication") then
    Thrown (ThrownResponse (redirect
      (getPathById "$lang+/_public+/apply+/$id+/type-application" params)))
  else if typeOfApplication_is state "delegate" then
    Thrown (ThrownResponse (redirect
      (getPathById "$lang+/_public+/apply+/$id+/application-delegate" params)))
  else if negb (typeOfApplication_is state "adult-child") then
    Thrown (ThrownResponse (redirect
      (getPathById "$lang+/_public+/apply+/$id+/type-application" params)))
  else if is_undefined (state !! "taxFiling2023") then
    Thrown (ThrownResponse (redirect
      (getPathById "$lang+/_public+/apply+/$id+/adult-child/tax-filing" params)))
  else if negb (truthy (state !! "taxFiling2023")) then
    Thrown (ThrownResponse (redirect
      (getPathById "$lang+/_public+/apply+/$id+/adult-child/file-taxes" params)))
  else if is_undefined (state !! "dateOfBirth") then
    Thrown (ThrownResponse (redirect
      (getPathById "$lang+/_public+/apply+/$id+/adult-child/date-of-birth" params)))
  else
    Returned ().


(** Modelled from the spec: the loaders of the adult and child flows
    ([loadApplyAdultStateForReview], [loadApplyChildState],
    [loadApplyChildStateForReview]) are not in the sources. Section 4.2: the
    Navigation Guard loads the state and either lets it through or redirects
    ("authorize(stepId, state) -> {ok} | {redirectTo}", "Side effects: none");
    its decision table is the parameter [authorize]. *)
Definition loadGuarded (l : Loader) (params : Params) (request : Request)
    (session : Session) : Outcome ApplyState :=
  state ← loadApplyState params session;
  match authorize l params request state with
  | Some url => Thrown (ThrownResponse (redirect url))
  | None => Returned state
  end.

End RouteHelpers.

(** ** Route actions as programs *)

(** What the submission service answers to [submitApplication]. *)
Inductive SubmissionAnswer :=
| Confirmed (confirmationCode : string)
| Rejected (error : string).

(** [enum FormAction { Back = 'back', Submit = 'submit' }]. *)
Inductive FormAction := Back | Submit.

(** [z.nativeEnum(FormAction).parse(value)]. *)
Definition parseFormAction (value : option string) : Outcome FormAction :=
  match value with
  | Some s =>
      if String.eqb s "back" then Returned Back
      else if String.eqb s "submit" then Returned Submit
      else Thrown ZodError
  | None => Thrown ZodError
  end.

(** [String(session.get(key))] and [String(formData.get(name))]. *)
Definition String_of_session_value (v : option SessionValue) : string :=
  match v with
  | None => "undefined"
  | Some (SvString s) => s
  | Some (SvApplyState _) => "[object Object]"
  end.

Definition String_of_form_value (v : option string) : string :=
  match v with
  | None => "null"
  | Some s => s
  end.

(** [formData.get(name) ? String(formData.get(name)) : undefined]. *)
Definition optional_field (fd : FormData) (name : string) : option string :=
  match formData_get fd name with
  | Some v => if String.eqb v "" then None else Some v
  | None => None
  end.

(** [state.communicationPreferences]. *)
Definition communicationPreferences (state : ApplyState)
    : option CommunicationPreferencesState :=
  match state !! "communicationPreferences" with
  | Some (VCommunicationPreferences c) => Some c
  | _ => None
  end.

(** [state.submissionInfo]. *)
Definition submissionInfo (state : ApplyState) : option SubmissionInfo :=
  match state !! "submissionInfo" with
  | Some (VSubmissionInfo s) => Some s
  | _ => None
  end.

Section Programs.
Context {imports : Imported}.

(** The effects of an action: the session object of the request, and the
    calls it awaits. *)
Inductive Eff : Type → Type :=
| GetSession : Eff Session
| PutSession (session : Session) : Eff unit
| AwaitFormData (request : Request) : Eff FormData
| AwaitVerifyHCaptchaResponse (hCaptchaResponse : string) (request : Request) : Eff bool
| AwaitSubmitApplication (benefitApplicationRequest : BenefitApplicationRequest)
    : Eff SubmissionAnswer
| NowISOString : Eff string.

Inductive Prog (A : Type) : Type :=
| Ret (a : A)
| Throw (e : Exn)
| Vis {X : Type} (e : Eff X) (k : X → Prog A).
Arguments Ret {A} a.
Arguments Throw {A} e.
Arguments Vis {A X} e k.

Fixpoint Prog_bind_def {A B} (f : A → Prog B) (p : Prog A) : Prog B :=
  match p with
  | Ret a => f a
  | Throw e => Throw e
  | Vis e k => Vis e (fun x => Prog_bind_def f (k x))
  end.

#[global] Instance Prog_ret : MRet Prog := @Ret.
#[global] Instance Prog_bind : MBind Prog := @Prog_bind_def.

Definition perform {X} (e : Eff X) : Prog X := Vis e Ret.

Definition liftOutcome {A} (o : Outcome A) : Prog A :=
  match o with
  | Returned a => Ret a
  | Thrown e => Throw e
  end.

(** [await benefitApplicationService.submitApplication(request)]: the
    confirmation code, or the call's error thrown on. *)
Definition submitApplication (benefitApplicationRequest : BenefitApplicationRequest)
    : Prog string :=
  answer ← perform (AwaitSubmitApplication benefitApplicationRequest);
  match answer with
  | Confirmed code => Ret code
  | Rejected error => Throw (SubmissionError error)
  end.

(** Modelled from the spec: [saveApplyState] and [clearApplyState] of
    ~/route-helpers/apply-route-helpers.server are not in the sources.
    Section 4.3: "save(sessionId, partial) - merges partial into existing
    fields, never removing previously-set fields"; section 5: "whole step
    payloads are replaced atomically; unrelated step payloads are
    untouched"; "clear(sessionId) - removes all wizard state for the
    session". The merge is the object spread of the partial over the current
    state. *)
Definition saveApplyState (params : Params) (state : ApplyState) : Prog ApplyState :=
  session ← perform GetSession;
  currentState ← liftOutcome (loadApplyState params session);
  let newState := state ∪ currentState in
  let sessionName := getSessionName (default "" (params !! "id")) in
  perform (PutSession (<[sessionName := SvApplyState newState]> session));;
  Ret newState.

(** Modelled from the spec: [clearApplyState] (see [saveApplyState]);
    section 4.3, "clear(sessionId) - removes all wizard state for the
    session". *)
Definition clearApplyState (params : Params) : Prog unit :=
  session ← perform GetSession;
  let sessionName := getSessionName (default "" (params !! "id")) in
  perform (PutSession (delete sessionName session)).

(** Modelled from the spec: the three loaders as programs, each [loadGuarded]
    on the session of the request. *)
Definition loadApplyAdultStateForReview (params : Params) (request : Request)
    : Prog ApplyState :=
  session ← perform GetSession;
  liftOutcome (loadGuarded ApplyAdultStateForReview params request session).

(** Modelled from the spec: see [loadApplyAdultStateForReview]. *)
Definition loadApplyChildState (params : Params) (request : Request)
    : Prog ApplyState :=
  session ← perform GetSession;
  liftOutcome (loadGuarded ApplyChildState params request session).

(** Modelled from the spec: see [loadApplyAdultStateForReview]. *)
Definition loadApplyChildStateForReview (params : Params) (request : Request)
    : Prog ApplyState :=
  session ← perform GetSession;
  liftOutcome (loadGuarded ApplyChildStateForReview params request session).

(** The CSRF check shared by the actions. *)
Definition csrfTokensMatch (session : Session) (formData : FormData) : bool :=
  let expectedCsrfToken := String_of_session_value (session !! "csrfToken") in
  let submittedCsrfToken := String_of_form_value (formData_get formData "_csrf") in
  String.eqb expectedCsrfToken submittedCsrfToken.

(** routes/$lang/_public/apply/$id/adult/review-information.tsx, [action]. *)
Definition adult_review_information_action (params : Params) (request : Request)
    : Prog Response :=
  state ← loadApplyAdultStateForReview params request;
  formData ← perform (AwaitFormData request);
  session ← perform GetSession;
  if negb (csrfTokensMatch session formData) then
    Throw (ThrownResponse (response "Invalid CSRF token" 400))
  else
  formAction ← liftOutcome (parseFormAction (formData_get formData "_action"));
  match formAction with
  | Back =>
      saveApplyState params {["editMode" := VBool false]};;
      Ret (redirect (getPathById
        "$lang/_public/apply/$id/adult/federal-provincial-territorial-benefits" params))
  | Submit =>
      let submit : Prog Response :=
        let benefitApplicationRequest :=
          toBenefitApplicationRequestFromApplyAdultState state in
        confirmationCode ← submitApplication benefitApplicationRequest;
        submittedOn ← perform NowISOString;
        let submissionInfo :=
          {| confirmationCode := confirmationCode; submittedOn := submittedOn |} in
        saveApplyState params {["submissionInfo" := VSubmissionInfo submissionInfo]};;
        Ret (redirect (getPathById "$lang/_public/apply/$id/adult/confirmation" params)) in
      let hCaptchaEnabled := includes (ENABLED_FEATURES getEnv) "hcaptcha" in
      if hCaptchaEnabled then
        let hCaptchaResponse := default "" (formData_get formData "h-captcha-response") in
        passed ← perform (AwaitVerifyHCaptchaResponse hCaptchaResponse request);
        if negb passed then
          clearApplyState params;;
          Ret (redirect (getPathById "$lang/_public/unable-to-process-request" params))
        else submit
      else submit
  end.

(** routes/$lang/_public/apply/$id/child/review-child-information.tsx,
    [action]: here the CAPTCHA is verified before the form action is read. *)
Definition child_review_child_information_action (params : Params) (request : Request)
    : Prog Response :=
  _ ← loadApplyChildStateForReview params request;
  formData ← perform (AwaitFormData request);
  session ← perform GetSession;
  if negb (csrfTokensMatch session formData) then
    Throw (ThrownResponse (response "Invalid CSRF token" 400))
  else
  let proceed : Prog Response :=
    formAction ← liftOutcome (parseFormAction (formData_get formData "_action"));
    match formAction with
    | Back =>
        saveApplyState params {["editMode" := VBool false]};;
        Ret (redirect (getPathById
          "$lang/_public/apply/$id/child/communication-preference" params))
    | Submit =>
        saveApplyState params ∅;;
        Ret (redirect (getPathById
          "$lang/_public/apply/$id/child/review-adult-information" params))
    end in
  let hCaptchaEnabled := includes (ENABLED_FEATURES getEnv) "hcaptcha" in
  if hCaptchaEnabled then
    let hCaptchaResponse := default "" (formData_get formData "h-captcha-response") in
    passed ← perform (AwaitVerifyHCaptchaResponse hCaptchaResponse request);
    if negb passed then
      clearApplyState params;;
      Ret (redirect (getPathById "$lang/_public/unable-to-process-request" params))
    else proceed
  else proceed.


(** The object [data] that the contact-information action reads off the
    form, with [String(formData.get(name) ?? '')] for the required fields. *)
Definition contactInformationFormData (formData : FormData) : ContactInformationState :=
  {| phoneNumber := optional_field formData "phoneNumber";
     phoneNumberAlt := optional_field formData "phoneNumberAlt";
     email := optional_field formData "email";
     confirmEmail := optional_field formData "confirmEmail";
     mailingAddress := default "" (formData_get formData "mailingAddress");
     mailingApartment := optional_field formData "mailingApartment";
     mailingCountry := default "" (formData_get formData "mailingCountry");
     mailingProvince := optional_field formData "mailingProvince";
     mailingCity := default "" (formData_get formData "mailingCity");
     mailingPostalCode := optional_field formData "mailingPostalCode";
     copyMailingAddress :=
       bool_decide (formData_get formData "copyMailingAddress" = Some "copy");
     homeAddress := optional_field formData "homeAddress";
     homeApartment := optional_field formData "homeApartment";
     homeCountry := optional_field formData "homeCountry";
     homeProvince := optional_field formData "homeProvince";
     homeCity := optional_field formData "homeCity";
     homePostalCode := optional_field formData "homePostalCode" |}.

(** [updatedData]: the home address is the mailing address when
    [copyMailingAddress] is set. *)
Definition copyMailingToHome (data : ContactInformationState) : ContactInformationState :=
  if copyMailingAddress data then
    {| phoneNumber := phoneNumber data;
       phoneNumberAlt := phoneNumberAlt data;
       email := email data;
       confirmEmail := confirmEmail data;
       mailingAddress := mailingAddress data;
       mailingApartment := mailingApartment data;
       mailingCountry := mailingCountry data;
       mailingProvince := mailingProvince data;
       mailingCity := mailingCity data;
       mailingPostalCode := mailingPostalCode data;
       copyMailingAddress := copyMailingAddress data;
       homeAddress := Some (mailingAddress data);
       homeApartment := mailingApartment data;
       homeCountry := Some (mailingCountry data);
       homeProvince := mailingProvince data;
       homeCity := Some (mailingCity data);
       homePostalCode := mailingPostalCode data |}
  else data.

(** [{ ...state.communicationPreferences, email }]. *)
Definition withEmail (c : CommunicationPreferencesState) (e : option string)
    : CommunicationPreferencesState :=
  {| preferredLanguage := preferredLanguage c;
     preferredMethod := preferredMethod c;
     cp_email := e;
     cp_confirmEmail := cp_confirmEmail c |}.

(** [state.communicationPreferences?.preferredMethod === id]. *)
Definition preferredMethod_is (state : ApplyState) (id : string) : bool :=
  match communicationPreferences state with
  | Some c => String.eqb (preferredMethod c) id
  | None => false
  end.

(** routes/$lang/_public/apply/$id/child/contact-information.tsx, [action]. *)
Definition child_contact_information_action (params : Params) (request : Request)
    : Prog Response :=
  state ← loadApplyChildState params request;
  formData ← perform (AwaitFormData request);
  session ← perform GetSession;
  if negb (csrfTokensMatch session formData) then
    Throw (ThrownResponse (response "Invalid CSRF token" 400))
  else
  let data := contactInformationFormData formData in
  match personalInformationSchema data with
  | inl errors => Ret (json errors)
  | inr parsedData =>
      let updatedData := copyMailingToHome parsedData in
      saveApplyState params {["contactInformation" := VContactInformation updatedData]};;
      (* if email is defined and comm. pref. preferredMethod is EMAIL then sync email *)
      (if truthy_string (email updatedData)
          && preferredMethod_is state (COMMUNICATION_METHOD_EMAIL_ID getEnv)
       then
         match communicationPreferences state with
         | Some c =>
             saveApplyState params
               {["communicationPreferences" :=
                   VCommunicationPreferences (withEmail c (email updatedData))]};;
             Ret ()
         | None => Ret ()
         end
       else Ret ());;
      if truthy (state !! "editMode") then
        Ret (redirect (getPathById
          "$lang/_public/apply/$id/child/review-adult-information" params))
      else
        Ret (redirect (getPathById
          "$lang/_public/apply/$id/child/communication-preference" params))
  end.

(** ** Running programs *)

(** The external services as one request sees them: the CAPTCHA verifier,
    the submission service (its answer may depend on the calls it has seen)
    and the clock. *)
Record Services := {
  verifyHCaptchaResponse : string → Request → bool;
  answerSubmitApplication :
    list BenefitApplicationRequest → BenefitApplicationRequest → SubmissionAnswer;
  nowISOString : string;
}.

(** The session, and what the external services have observed so far. *)
Record World := {
  w_session : Session;
  w_submitted : list BenefitApplicationRequest;
  w_verified : list string;
}.

Definition withSession (session : Session) (w : World) : World :=
  {| w_session := session;
     w_submitted := w_submitted w;
     w_verified := w_verified w |}.

Definition handle {X} (svc : Services) (e : Eff X) (w : World) : X * World :=
  match e in Eff X return X * World with
  | GetSession => (w_session w, w)
  | PutSession session => ((), withSession session w)
  | AwaitFormData request => (request_formData request, w)
  | AwaitVerifyHCaptchaResponse hCaptchaResponse request =>
      (verifyHCaptchaResponse svc hCaptchaResponse request,
       {| w_session := w_session w;
          w_submitted := w_submitted w;
          w_verified := w_verified w ++ [hCaptchaResponse] |})
  | AwaitSubmitApplication benefitApplicationRequest =>
      (answerSubmitApplication svc (w_submitted w) benefitApplicationRequest,
       {| w_session := w_session w;
          w_submitted := w_submitted w ++ [benefitApplicationRequest];
          w_verified := w_verified w |})
  | NowISOString => (nowISOString svc, w)
  end.

(** One request handled from start to end. *)
Fixpoint run {A} (svc : Services) (p : Prog A) (w : World) : Outcome A * World :=
  match p with
  | Ret a => (Returned a, w)
  | Throw e => (Thrown e, w)
  | Vis e k => let '(x, w') := handle svc e w in run svc (k x) w'
  end.

(** *** Two requests in flight

    JavaScript runs the code of one request until it awaits, and may then
    run the other's; the code between two awaits is never interrupted. Both
    requests work on one session here, so a write by one is seen by the
    other at once. *)

(** The effects an action awaits. *)
Definition is_await {X} (e : Eff X) : bool :=
  match e with
  | AwaitFormData _ | AwaitVerifyHCaptchaResponse _ _ | AwaitSubmitApplication _ => true
  | _ => false
  end.

(** Run the synchronous code of [p] up to its next await. *)
Fixpoint sync {A} (svc : Services) (p : Prog A) (w : World) : Prog A * World :=
  match p with
  | Vis e k =>
      if is_await e then (p, w)
      else let '(x, w') := handle svc e w in sync svc (k x) w'
  | _ => (p, w)
  end.

(** One turn of a request: the call it was awaiting (if any) is made and
    answered, and its code runs on to the next await. *)
Definition turn {A} (svc : Services) (p : Prog A) (w : World) : Prog A * World :=
  match p with
  | Vis e k =>
      if is_await e then let '(x, w') := handle svc e w in sync svc (k x) w'
      else sync svc p w
  | _ => (p, w)
  end.

(** The schedule names, turn by turn, which of the two requests runs
    ([true]: the first). *)
Fixpoint interleave {A} (svc : Services) (schedule : list bool)
    (p q : Prog A) (w : World) : Prog A * Prog A * World :=
  match schedule with
  | [] => (p, q, w)
  | true :: rest => let '(p', w') := turn svc p w in interleave svc rest p' q w'
  | false :: rest => let '(q', w') := turn svc q w in interleave svc rest p q' w'
  end.

(** The outcome of a request that has finished. *)
Definition finished {A} (p : Prog A) : option (Outcome A) :=
  match p with
  | Ret a => Some (Returned a)
  | Throw e => Some (Thrown e)
  | Vis _ _ => None
  end.

(** A sequence of step submissions, each saving its partial state. *)
Fixpoint saveSteps (params : Params) (partials : list ApplyState) : Prog unit :=
  match partials with
  | [] => Ret ()
  | partial :: rest => saveApplyState params partial;; saveSteps params rest
  end.

(** ** Vocabulary of the statements *)

(** [hCaptchaEnabled] and [hCaptchaResponse] of the review actions. *)
Definition hCaptchaEnabled : bool := includes (ENABLED_FEATURES getEnv) "hcaptcha".

Definition hCaptchaResponseOf (request : Request) : string :=
  default "" (formData_get (request_formData request) "h-captcha-response").

(** A request that passes the CSRF check and names the submit action. *)
Definition isSubmitRequest (session : Session) (request : Request) : Prop :=
  csrfTokensMatch session (request_formData request) = true
  ∧ formData_get (request_formData request) "_action" = Some "submit".

(** The CAPTCHA does not stop the request: the feature is off, or the
    verifier accepts the submitted response. *)
Definition captchaPasses (svc : Services) (request : Request) : Prop :=
  hCaptchaEnabled = true →
  verifyHCaptchaResponse svc (hCaptchaResponseOf request) request = true.

(** The responses the CAPTCHA verifier has seen after a request that got as
    far as the CAPTCHA check. *)
Definition verifiedAfter (request : Request) (w : World) : list string :=
  if hCaptchaEnabled then w_verified w ++ [hCaptchaResponseOf request] else w_verified w.



(** The session key of the application. *)
Definition sessionNameOf (params : Params) : string :=
  getSessionName (default "" (params !! "id")).

End Programs.

Arguments Ret {imports A} a.
Arguments Throw {imports A} e.
Arguments Vis {imports A X} e k.

(** ** The subscription API mock: POST /v1/codes/verify *)

Module SubscriptionApiMock.

(** A row of [db.subscriptionConfirmationCode]; dates are milliseconds since
    the epoch, which is what [<] and [>] compare on Date objects. *)
Record SubscriptionConfirmationCode := {
  id : string;
  email : string;
  confirmationCode : string;
  createdDate : Z;
  expiryDate : Z;
}.

(** A JSON value of a request body, as far as [z.string()] tells them apart. *)
Inductive Json :=
| JString (s : string)
| JNumber (n : Z)
| JNull.

(** [validateSubscriptionSchema.safeParse(requestBody)]: both properties
    must be strings. *)
Definition validateSubscriptionSchema (requestBody : gmap string Json)
    : option (string * string) :=
  match requestBody !! "email", requestBody !! "confirmationCode" with
  | Some (JString e), Some (JString c) => Some (e, c)
  | _, _ => None
  end.

(** [findMany({ where: { email: { equals } } })]. *)
Definition findMany (table : list SubscriptionConfirmationCode) (equals : string)
    : list SubscriptionConfirmationCode :=
  filter (fun row => email row = equals) table.

(** [xs.reduce(f)] without an initial value; it throws on an empty array,
    which [None] stands for. *)
Definition reduce {A} (f : A → A → A) (xs : list A) : option A :=
  match xs with
  | [] => None
  | x :: rest => Some (fold_left f rest x)
  end.

(** [(prev, current) => (prev.createdDate > current.createdDate ? prev : current)]. *)
Definition later (prev current : SubscriptionConfirmationCode)
    : SubscriptionConfirmationCode :=
  if (createdDate prev >? createdDate current)%Z then prev else current.

Inductive ConfirmCodeStatus := noCode | Valid | expired | mismatch.

(** The handler of POST /v1/codes/verify: a 400 response thrown for a body
    outside the schema, otherwise [{ confirmCodeStatus }] with status 200. *)
Definition verify (table : list SubscriptionConfirmationCode) (timeEntered : Z)
    (requestBody : gmap string Json) : Outcome ConfirmCodeStatus :=
  match validateSubscriptionSchema requestBody with
  | None => Thrown (ThrownResponse (response "" 400))
  | Some (enteredEmail, enteredCode) =>
      let subscriptionConfirmationCodesEntities := findMany table enteredEmail in
      match reduce later subscriptionConfirmationCodesEntities with
      | None => Returned noCode      (* length === 0 *)
      | Some latestConfirmCode =>
          if String.eqb (confirmationCode latestConfirmCode) enteredCode
             && (timeEntered <? expiryDate latestConfirmCode)%Z then
            Returned Valid
          else if String.eqb (confirmationCode latestConfirmCode) enteredCode
             && (timeEntered >? expiryDate latestConfirmCode)%Z then
            Returned expired
          else
            (* There is at least 1 confirmation code for this user but the
               code entered by said user does not match it.. *)
            Returned mismatch
      end
  end.

End SubscriptionApiMock.

(** ** The subscription API mock: the other handlers

    The tables of [./db] are @mswjs/data models; the file that declares them
    is not in the sources. A table is the list of its entities in insertion
    order: [create] puts the new entity last, [update] changes the first
    entity its query finds, in place, and [findMany] keeps the order. An
    entity whose primary key is already in the table is outside what is
    stated about [create]. *)

Definition db_create {A} (table : list A) (entity : A) : list A :=
  (table ++ [entity])%list.

Fixpoint db_update {A} (found : A → bool) (data : A → A) (table : list A) : list A :=
  match table with
  | [] => []
  | entity :: rest =>
      if found entity then data entity :: rest
      else entity :: db_update found data rest
  end.

Module CodeRequestMock.
Import SubscriptionApiMock.

(** [requestCodeSubscriptionSchema.safeParse(requestBody)]. *)
Definition requestCodeSubscriptionSchema (requestBody : gmap string Json)
    : option string :=
  match requestBody !! "email" with
  | Some (JString e) => Some e
  | _ => None
  end.

(** [2 * 24 * 60 * 60 * 1000]: two days in milliseconds. *)
Definition twoDays : Z := 2 * 24 * 60 * 60 * 1000.

(** The code, creation date and expiry the handler writes: the code is
    always '0101'; [timeEntered] is the clock at the start of the handler
    and [now] the clock read again for the expiry. *)
Definition renewed (timeEntered now : Z) (row : SubscriptionConfirmationCode)
    : SubscriptionConfirmationCode :=
  {| id := id row;
     email := email row;
     confirmationCode := "0101";
     createdDate := timeEntered;
     expiryDate := now + twoDays |}.

(** The handler of POST /v1/codes/request: the table it leaves (the
    response has status 204), or the 400 response thrown for a body outside
    the schema. *)
Definition requestCode (table : list SubscriptionConfirmationCode)
    (timeEntered now : Z) (requestBody : gmap string Json)
    : Outcome (list SubscriptionConfirmationCode) :=
  match requestCodeSubscriptionSchema requestBody with
  | None => Thrown (ThrownResponse (response "" 400))
  | Some enteredEmail =>
      let subscriptionConfirmationCodesEntities := findMany table enteredEmail in
      if decide (length subscriptionConfirmationCodesEntities = 0) then
        (* No code found for that user --- generate a new code *)
        Returned (db_create table
          {| id := "0000101";
             email := enteredEmail;
             confirmationCode := "0101";
             createdDate := timeEntered;
             expiryDate := now + twoDays |})
      else
        (* Email existed with code already, updating the code only. *)
        Returned (db_update (fun row => bool_decide (email row = enteredEmail))
                    (renewed timeEntered now) table)
  end.


End CodeRequestMock.

Module SubscriptionsMock.
Import SubscriptionApiMock.

(** An entity of [db.subscription], as the handlers read and write it. *)
Record Subscription := {
  id : string;
  userId : string;
  msLanguageCode : string;
  alertTypeCode : string;
}.


(** [db.subscription.findMany({ where: { userId: { equals } } })]. *)
Definition findMany (table : list Subscription) (equals : string) : list Subscription :=
  filter (fun row => userId row = equals) table.





End SubscriptionsMock.

(** The subscription service (subscription-service.server.ts) in front of the
    mock: [fetch] is the call of the handler of that URL and method. The
    audit and instrumentation calls have no effect on any result and are
    left out. *)
Module SubscriptionService.
Import SubscriptionApiMock SubscriptionsMock.



(** [JSON.stringify(subscription)] for a [SubscriptionInfo], which has the
    four fields of the mock's entity. *)
Definition JSON_stringify (subscription : Subscription) : gmap string Json :=
  {[ "id" := JString (id subscription);
     "userId" := JString (userId subscription);
     "msLanguageCode" := JString (msLanguageCode subscription);
     "alertTypeCode" := JString (alertTypeCode subscription) ]}.







End SubscriptionService.

(** ** A concrete instance, for evaluating the model *)

(** ** Form schemas of the child flow

    The zod schemas that the communication-preference and
    contact-information actions build, on the objects the actions read off
    the form: every property is a string, [undefined] or a boolean, so no
    property fails its type and the object refinement ([superRefine]) always
    runs, on the trimmed values. The result of [safeParse] is the list of
    issues, or, when there is none, the parsed data. *)

(** A zod issue: its code, the property it is about and, where the source
    gives one, the key of its message. *)
Inductive Issue :=
| issue_invalid_type (path message : string)    (* z.boolean({ errorMap }) on undefined *)
| issue_too_small (path message : string)       (* .min(1, message) *)
| issue_too_big (path : string) (maximum : nat) (* .max(maximum) *)
| issue_custom (path message : string).         (* .refine(check, message), ctx.addIssue *)

(** Imports of the two routes that are not part of the sources: the string
    [trim] of zod, the validators of validator.js, libphonenumber-js,
    ~/utils/postal-zip-code-utils.server and ~/utils/string-utils, the
    country ids of [getEnv()], and the formatting of a ZodError. *)
Class Validators := {
  trim : string → string;
  isEmail : string → bool;
  isValidPhoneNumber : string → bool;               (* isValidPhoneNumber(val, 'CA') *)
  formatInternational : string → string;            (* parsePhoneNumber(val, 'CA').formatInternational() *)
  isAllValidInputCharacters : string → bool;
  isValidPostalCode : string → string → bool;       (* (countryCode, postalCode) *)
  isValidCanadianPostalCode : string → string → bool;  (* (provinceCode, postalCode) *)
  formatPostalCode : string → string → string;      (* (countryCode, postalCode) *)
  CANADA_COUNTRY_ID : string;
  USA_COUNTRY_ID : string;
  format : list Issue → string;                     (* error.format() *)
  transformFlattenedError : list Issue → string;    (* transformFlattenedError(error.flatten()) *)
}.

(** [.min(1, message)], [.max(maximum)] and [.refine(check, message)] on the
    string of property [path]; [.optional()]. *)
Definition min_1 (path message val : string) : list Issue :=
  if Nat.ltb (String.length val) 1 then [issue_too_small path message] else [].

Definition max_length (maximum : nat) (path val : string) : list Issue :=
  if Nat.ltb maximum (String.length val) then [issue_too_big path maximum] else [].

Definition refinement (check : string → bool) (path message val : string) : list Issue :=
  if check val then [] else [issue_custom path message].

Definition optionally {A} (schema : A → list Issue) (val : option A) : list Issue :=
  match val with
  | Some v => schema v
  | None => []
  end.

(** A string that is neither [undefined] nor empty: what [!val] and
    [validator.isEmpty(val)] both reject. *)
Definition nonEmpty (val : option string) : option string :=
  match val with
  | Some s => if String.eqb s "" then None else Some s
  | None => None
  end.

(** [ctx.addIssue] unless the property is a non-empty string. *)
Definition required (path message : string) (val : option string) : list Issue :=
  match nonEmpty val with
  | Some _ => []
  | None => [issue_custom path message]
  end.

(** [state.contactInformation]. *)
Definition contactInformation (state : ApplyState) : option ContactInformationState :=
  match state !! "contactInformation" with
  | Some (VContactInformation c) => Some c
  | _ => None
  end.

Section Schemas.
Context {imports : Imported} {validators : Validators}.

(** *** child/communication-preference.tsx, [formSchema] *)

(** The values of the object after [.trim()]. *)
Definition formSchema_trimmed (data : CommunicationPreferencesState)
    : CommunicationPreferencesState :=
  {| preferredLanguage := trim (preferredLanguage data);
     preferredMethod := trim (preferredMethod data);
     cp_email := trim <$> cp_email data;
     cp_confirmEmail := trim <$> cp_confirmEmail data |}.

(** The issues of the properties of [z.object({..})]. *)
Definition formSchema_object (val : CommunicationPreferencesState) : list Issue :=
  (min_1 "preferredLanguage"
     "apply-child:communication-preference.error-message.preferred-language-required"
     (preferredLanguage val)
   ++ min_1 "preferredMethod"
        "apply-child:communication-preference.error-message.preferred-method-required"
        (preferredMethod val)
   ++ optionally (max_length 64 "email") (cp_email val)
   ++ optionally (max_length 64 "confirmEmail") (cp_confirmEmail val))%list.

(** The issues added by [superRefine]; [state] is the state the action has
    loaded. *)
Definition formSchema_superRefine (state : ApplyState)
    (val : CommunicationPreferencesState) : list Issue :=
  if String.eqb (preferredMethod val) (COMMUNICATION_METHOD_EMAIL_ID getEnv) then
    ((match nonEmpty (cp_email val) with
      | None =>
          [issue_custom "email"
             "apply-child:communication-preference.error-message.email-required"]
      | Some email =>
          if negb (isEmail email) then
            [issue_custom "email"
               "apply-child:communication-preference.error-message.email-valid"]
          else []
      end)
     ++
     (if negb (truthy_string (contactInformation state ≫= email)) then
        match nonEmpty (cp_confirmEmail val) with
        | None =>
            [issue_custom "confirmEmail"
               "apply-child:communication-preference.error-message.confirm-email-required"]
        | Some confirmEmail =>
            if negb (isEmail confirmEmail) then
              [issue_custom "confirmEmail"
                 "apply-child:communication-preference.error-message.confirm-email-valid"]
            else if negb (bool_decide (cp_email val = Some confirmEmail)) then
              [issue_custom "confirmEmail"
                 "apply-child:communication-preference.error-message.email-match"]
            else []
        end
      else []))%list
  else [].

(** [formSchema.safeParse(data)]. *)
Definition formSchema (state : ApplyState) (data : CommunicationPreferencesState)
    : list Issue + CommunicationPreferencesState :=
  let val := formSchema_trimmed data in
  match (formSchema_object val ++ formSchema_superRefine state val)%list with
  | [] => inr val
  | issues => inl issues
  end.

(** The object [data] that the action reads off the form. *)
Definition communicationPreferenceFormData (formData : FormData)
    : CommunicationPreferencesState :=
  {| cp_confirmEmail := optional_field formData "confirmEmail";
     cp_email := optional_field formData "email";
     preferredLanguage := default "" (formData_get formData "preferredLanguage");
     preferredMethod := default "" (formData_get formData "preferredMethod") |}.

(** routes/$lang/_public/apply/$id/child/communication-preference.tsx,
    [action]. *)
Definition child_communication_preference_action (params : Params) (request : Request)
    : Prog Response :=
  state ← loadApplyChildState params request;
  formData ← perform (AwaitFormData request);
  session ← perform GetSession;
  if negb (csrfTokensMatch session formData) then
    Throw (ThrownResponse (response "Invalid CSRF token" 400))
  else
  let data := communicationPreferenceFormData formData in
  match formSchema state data with
  | inl issues => Ret (json (format issues))
  | inr parsedData =>
      saveApplyState params
        {[ "communicationPreferences" := VCommunicationPreferences parsedData;
           "editMode" := VBool true ]};;   (* last step in the flow *)
      if truthy (state !! "editMode") then
        Ret (redirect (getPathById
          "$lang/_public/apply/$id/child/review-adult-information" params))
      else
        Ret (redirect (getPathById
          "$lang/_public/apply/$id/child/review-child-information" params))
  end.


(** *** child/contact-information.tsx, [personalInformationSchema] *)

Definition personalInformationSchema_trimmed (data : ContactInformationState)
    : ContactInformationState :=
  {| phoneNumber := trim <$> phoneNumber data;
     phoneNumberAlt := trim <$> phoneNumberAlt data;
     email := trim <$> email data;
     confirmEmail := trim <$> confirmEmail data;
     mailingAddress := trim (mailingAddress data);
     mailingApartment := trim <$> mailingApartment data;
     mailingCountry := trim (mailingCountry data);
     mailingProvince := trim <$> mailingProvince data;
     mailingCity := trim (mailingCity data);
     mailingPostalCode := trim <$> mailingPostalCode data;
     copyMailingAddress := copyMailingAddress data;
     homeAddress := trim <$> homeAddress data;
     homeApartment := trim <$> homeApartment data;
     homeCountry := trim <$> homeCountry data;
     homeProvince := trim <$> homeProvince data;
     homeCity := trim <$> homeCity data;
     homePostalCode := trim <$> homePostalCode data |}.

(** [(val) => !val || isValidPhoneNumber(val, 'CA')]. *)
Definition phoneNumberValid (val : string) : bool :=
  String.eqb val "" || isValidPhoneNumber val.

Definition characters_valid (path : string) : string → list Issue :=
  refinement isAllValidInputCharacters path
    "apply-child:contact-information.error-message.characters-valid".

Definition personalInformationSchema_object (val : ContactInformationState) : list Issue :=
  (optionally (fun v =>
       max_length 100 "phoneNumber" v
       ++ refinement phoneNumberValid "phoneNumber"
            "apply-child:contact-information.error-message.phone-number-valid" v)
     (phoneNumber val)
   ++ optionally (fun v =>
        max_length 100 "phoneNumberAlt" v
        ++ refinement phoneNumberValid "phoneNumberAlt"
             "apply-child:contact-information.error-message.phone-number-alt-valid" v)
      (phoneNumberAlt val)
   ++ optionally (max_length 64 "email") (email val)
   ++ optionally (max_length 64 "confirmEmail") (confirmEmail val)
   ++ (min_1 "mailingAddress"
         "apply-child:contact-information.error-message.mailing-address.address-required"
         (mailingAddress val)
       ++ max_length 30 "mailingAddress" (mailingAddress val)
       ++ characters_valid "mailingAddress" (mailingAddress val))
   ++ optionally (fun v =>
        max_length 30 "mailingApartment" v ++ characters_valid "mailingApartment" v)
      (mailingApartment val)
   ++ min_1 "mailingCountry"
        "apply-child:contact-information.error-message.mailing-address.country-required"
        (mailingCountry val)
   ++ optionally
        (min_1 "mailingProvince"
           "apply-child:contact-information.error-message.mailing-address.province-required")
        (mailingProvince val)
   ++ (min_1 "mailingCity"
         "apply-child:contact-information.error-message.mailing-address.city-required"
         (mailingCity val)
       ++ max_length 100 "mailingCity" (mailingCity val)
       ++ characters_valid "mailingCity" (mailingCity val))
   ++ optionally (fun v =>
        max_length 100 "mailingPostalCode" v ++ characters_valid "mailingPostalCode" v)
      (mailingPostalCode val)
   ++ optionally (fun v =>
        max_length 30 "homeAddress" v ++ characters_valid "homeAddress" v)
      (homeAddress val)
   ++ optionally (fun v =>
        max_length 30 "homeApartment" v ++ characters_valid "homeApartment" v)
      (homeApartment val)
   ++ optionally (fun v =>
        max_length 100 "homeCity" v ++ characters_valid "homeCity" v)
      (homeCity val)
   ++ optionally (fun v =>
        max_length 100 "homePostalCode" v ++ characters_valid "homePostalCode" v)
      (homePostalCode val))%list.

(** [val.x === CANADA_COUNTRY_ID || val.x === USA_COUNTRY_ID]. *)
Definition isCanadaOrUsa (country : string) : bool :=
  String.eqb country CANADA_COUNTRY_ID || String.eqb country USA_COUNTRY_ID.

(** The checks on the province and the postal code of an address in Canada
    or the USA; [prefix] is 'mailing' or 'home'. *)
Definition provinceAndPostalCode (prefix : string) (country : string)
    (province postalCode : option string) : list Issue :=
  (required (prefix ++ "Province")
     ("apply-child:contact-information.error-message." ++ prefix
        ++ "-address.province-required")
     province
   ++
   match nonEmpty postalCode with
   | None =>
       [issue_custom (prefix ++ "PostalCode")
          ("apply-child:contact-information.error-message." ++ prefix
             ++ "-address.postal-code-required")]
   | Some postalCode =>
       if negb (isValidPostalCode country postalCode) then
         [issue_custom (prefix ++ "PostalCode")
            ("apply-child:contact-information.error-message." ++ prefix
               ++ (if String.eqb country CANADA_COUNTRY_ID
                   then "-address.postal-code-valid"
                   else "-address.zip-code-valid"))]
       else
         match nonEmpty province with
         | Some province =>
             if String.eqb country CANADA_COUNTRY_ID
                && negb (isValidCanadianPostalCode province postalCode)
             then
               [issue_custom (prefix ++ "PostalCode")
                  ("apply-child:contact-information.error-message." ++ prefix
                     ++ "-address.invalid-postal-code-for-province")]
             else []
         | None => []
         end
   end)%list.

(** A Canadian postal code given for another country. *)
Definition postalCodeOfAnotherCountry (prefix : string) (country postalCode : option string)
    : list Issue :=
  match nonEmpty country, nonEmpty postalCode with
  | Some country, Some postalCode =>
      if negb (String.eqb country CANADA_COUNTRY_ID)
         && isValidPostalCode CANADA_COUNTRY_ID postalCode
      then
        [issue_custom (prefix ++ "Country")
           ("apply-child:contact-information.error-message." ++ prefix
              ++ "-address.invalid-postal-code-for-country")]
      else []
  | _, _ => []
  end.

Definition personalInformationSchema_superRefine (val : ContactInformationState)
    : list Issue :=
  ((* if (val.email ?? val.confirmEmail) *)
   (if truthy_string (match email val with
                      | Some email => Some email
                      | None => confirmEmail val
                      end)
    then
      (match nonEmpty (email val) with
       | None =>
           [issue_custom "email"
              "apply-child:contact-information.error-message.email-required"]
       | Some email =>
           if negb (isEmail email) then
             [issue_custom "email"
                "apply-child:contact-information.error-message.email-valid"]
           else []
       end)
      ++
      (match nonEmpty (confirmEmail val) with
       | None =>
           [issue_custom "confirmEmail"
              "apply-child:contact-information.error-message.confirm-email-required"]
       | Some confirmEmail =>
           if negb (isEmail confirmEmail) then
             [issue_custom "confirmEmail"
                "apply-child:contact-information.error-message.confirm-email-valid"]
           else if negb (bool_decide (email val = Some confirmEmail)) then
             [issue_custom "confirmEmail"
                "apply-child:contact-information.error-message.email-match"]
           else []
       end)
    else [])
   ++
   (if isCanadaOrUsa (mailingCountry val) then
      provinceAndPostalCode "mailing" (mailingCountry val)
        (mailingProvince val) (mailingPostalCode val)
    else [])
   ++
   postalCodeOfAnotherCountry "mailing" (Some (mailingCountry val)) (mailingPostalCode val)
   ++
   (if negb (copyMailingAddress val) then
      required "homeAddress"
        "apply-child:contact-information.error-message.home-address.address-required"
        (homeAddress val)
      ++ required "homeCountry"
           "apply-child:contact-information.error-message.home-address.country-required"
           (homeCountry val)
      ++ required "homeCity"
           "apply-child:contact-information.error-message.home-address.city-required"
           (homeCity val)
      ++
      match homeCountry val with
      | Some country =>
          if isCanadaOrUsa country then
            provinceAndPostalCode "home" country (homeProvince val) (homePostalCode val)
            ++ postalCodeOfAnotherCountry "home" (homeCountry val) (homePostalCode val)
          else []
      | None => []
      end
    else []))%list.

(** [.transform((val) => ({ ...val, .. }))]: postal codes and phone numbers
    are formatted. *)
Definition personalInformationSchema_transform (val : ContactInformationState)
    : ContactInformationState :=
  {| phoneNumber :=
       match nonEmpty (phoneNumber val) with
       | Some phoneNumber => Some (formatInternational phoneNumber)
       | None => phoneNumber val
       end;
     phoneNumberAlt :=
       match nonEmpty (phoneNumberAlt val) with
       | Some phoneNumberAlt => Some (formatInternational phoneNumberAlt)
       | None => phoneNumberAlt val
       end;
     email := email val;
     confirmEmail := confirmEmail val;
     mailingAddress := mailingAddress val;
     mailingApartment := mailingApartment val;
     mailingCountry := mailingCountry val;
     mailingProvince := mailingProvince val;
     mailingCity := mailingCity val;
     mailingPostalCode :=
       match nonEmpty (Some (mailingCountry val)), nonEmpty (mailingPostalCode val) with
       | Some country, Some postalCode => Some (formatPostalCode country postalCode)
       | _, _ => mailingPostalCode val
       end;
     copyMailingAddress := copyMailingAddress val;
     homeAddress := homeAddress val;
     homeApartment := homeApartment val;
     homeCountry := homeCountry val;
     homeProvince := homeProvince val;
     homeCity := homeCity val;
     homePostalCode :=
       match nonEmpty (homeCountry val), nonEmpty (homePostalCode val) with
       | Some country, Some postalCode => Some (formatPostalCode country postalCode)
       | _, _ => homePostalCode val
       end |}.

(** [personalInformationSchema.safeParse(data)]: the transform only runs on
    a value without issues. *)
Definition personalInformationSchema_safeParse (data : ContactInformationState)
    : list Issue + ContactInformationState :=
  let val := personalInformationSchema_trimmed data in
  match (personalInformationSchema_object val
         ++ personalInformationSchema_superRefine val)%list with
  | [] => inr (personalInformationSchema_transform val)
  | issues => inl issues
  end.

(** The parameter [personalInformationSchema] of the imports is the schema
    of the source, with its issues formatted for the response. *)
Definition isTheSchemaOfTheSource : Prop :=
  ∀ data,
    personalInformationSchema data =
      match personalInformationSchema_safeParse data with
      | inl issues => inl (transformFlattenedError issues)
      | inr parsedData => inr parsedData
      end.

(** The addresses of a contact information are complete: address, country
    and city of the mailing and of the home address are not empty. *)
Definition hasBothAddresses (c : ContactInformationState) : Prop :=
  mailingAddress c ≠ "" ∧ mailingCountry c ≠ "" ∧ mailingCity c ≠ ""
  ∧ is_Some (nonEmpty (homeAddress c))
  ∧ is_Some (nonEmpty (homeCountry c))
  ∧ is_Some (nonEmpty (homeCity c)).

End Schemas.

(** The imports with the contact-information schema of the source in the
    place of the parameter [personalInformationSchema]. *)
Definition withPersonalInformationSchema (base : Imported) {validators : Validators}
    : Imported :=
  {| BenefitApplicationRequest := @BenefitApplicationRequest base;
     getPathById := @getPathById base;
     getEnv := @getEnv base;
     toBenefitApplicationRequestFromApplyAdultState :=
       @toBenefitApplicationRequestFromApplyAdultState base;
     authorize := @authorize base;
     personalInformationSchema := fun data =>
       match personalInformationSchema_safeParse data with
       | inl issues => inl (transformFlattenedError issues)
       | inr parsedData => inr parsedData
       end |}.

(** ** The children summary of the adult-child flow (the third route in
    routes/_gcweb-app.update-info.tsx) *)

Section ChildrenSummary.
Context {imports : Imported}.

(** [loader]: the state whose id and children the page shows. *)
Definition adult_child_children_loader (params : Params) (request : Request)
    : Prog ApplyState :=
  session ← perform GetSession;
  liftOutcome (loadApplyAdultChildState params request session).

(** [action]. *)
Definition adult_child_children_action (params : Params) (request : Request)
    : Prog Response :=
  formData ← perform (AwaitFormData request);
  session ← perform GetSession;
  if negb (csrfTokensMatch session formData) then
    Throw (ThrownResponse (response "Invalid CSRF token" 400))
  else
    Ret (redirect (getPathById
      "$lang+/_public+/apply+/$id+/adult-child/personal-information" params)).

End ChildrenSummary.

(** ** Sessions in Redis (services/session-service.server.ts) *)

Module SessionService.

(** Imports that are not part of the sources: the commands of
    [redisService] (~/services/redis-service.server) on a Redis database,
    [JSON.stringify] and [JSON.parse] on session data, and
    [env.SESSION_EXPIRES_SECONDS]. *)
Class RedisImports := {
  Redis : Type;
  SessionData : Type;
  redisService_set : string → string → Z → Redis → Redis;   (* set(key, value, { EX }) *)
  redisService_get : string → Redis → option string;        (* get(key), null when absent *)
  redisService_del : string → Redis → Redis;
  JSON_stringify : SessionData → string;
  JSON_parse : string → SessionData;
  SESSION_EXPIRES_SECONDS : Z;
}.

Section Storage.
Context {redis : RedisImports}.

(** The strategy passed to Remix's [createSessionStorage]. *)
Record SessionIdStorageStrategy := {
  createData : SessionData → Redis → Redis * string;
  readData : string → Redis → option SessionData;
  updateData : string → SessionData → Redis → Redis;
  deleteData : string → Redis → Redis;
}.

(** [createRedisSessionStorage()]; [randomUUID] is the value of the call
    [randomUUID()] made when the storage is created. *)
Definition createRedisSessionStorage (randomUUID : string) : SessionIdStorageStrategy :=
  let sessionId := randomUUID in
  let EX := SESSION_EXPIRES_SECONDS in
  {| createData := fun data db =>
       (redisService_set sessionId (JSON_stringify data) EX db, sessionId);
     readData := fun id db =>
       (* JSON.parse(null) is null *)
       JSON_parse <$> redisService_get id db;
     updateData := fun id data db =>
       redisService_set id (JSON_stringify data) EX db;
     deleteData := fun id db => redisService_del id db |}.

End Storage.

End SessionService.

(** ** The letters page (routes/_protected+/letters+/_index.tsx) *)

Module Letters.

Inductive SortOrder := asc | desc.

(** [orderEnumSchema.catch('desc').parse(value)]. *)
Definition orderEnumSchema_catch_desc (value : option string) : SortOrder :=
  match value with
  | Some s => if String.eqb s "asc" then asc else desc
  | None => desc
  end.

(** A letter and a letter type as the interop service returns them. *)
Record LetterInfo := {
  letter_id : string;
  name : string;
  referenceId : string;
  issuedOn : string;
}.

Record LetterType := {
  code : string;
  nameEn : string;
  nameFr : string;
}.

(** Imports that are not part of the sources. *)
Class LettersImports := {
  featureEnabled : string → bool;
  (* raoidcService.handleSessionValidation(request): what it throws, if anything *)
  handleSessionValidation : option Exn;
  getUserId : string;
  getLetterInfoByClientId : string → string → SortOrder → list LetterInfo;
  getAllLetterTypes : list LetterType;
  getNameByLanguage : string → LetterType → string;
}.

Section Loader.
Context {imports : LettersImports}.

Record LoaderData := {
  letters : list LetterInfo;
  letterTypes : list LetterType;
  sortOrder : SortOrder;
}.

(** [loader]; [searchParams] are the search parameters of the request's
    URL. *)
Definition loader (searchParams : list (string * string)) : Outcome LoaderData :=
  if negb (featureEnabled "view-letters") then
    Thrown (ThrownResponse (response "Not Found" 404))
  else
  match handleSessionValidation with
  | Some e => Thrown e
  | None =>
      let sortOrder := orderEnumSchema_catch_desc (formData_get searchParams "sort") in
      let userId := getUserId in
      let letters := getLetterInfoByClientId userId "clientId" sortOrder in
      let letterTypes :=
        List.filter
          (fun type => existsb (fun letter => String.eqb (name letter) (code type)) letters)
          getAllLetterTypes in
      Returned {| letters := letters; letterTypes := letterTypes; sortOrder := sortOrder |}
  end.

(** [LettersIndex]: the name shown for a letter. *)
Definition letterName (language : string) (letterTypes : list LetterType)
    (letter : LetterInfo) : string :=
  let letterType := find (fun type => String.eqb (code type) (name letter)) letterTypes in
  match letterType with
  | Some letterType => getNameByLanguage language letterType
  | None => name letter
  end.

End Loader.

End Letters.

(** ** The phone number of a user (routes/_gcweb-app.update-info.tsx) *)

Module UpdateInfo.

(** The regular expression [/\(\d{3}\) \d{3}-\d{4}/]: a sequence of literal
    characters and digits. *)
Inductive Atom :=
| Literal (c : Ascii.ascii)
| Digit.                      (* \d *)

Definition isDigit (c : Ascii.ascii) : bool :=
  let n := Ascii.nat_of_ascii c in Nat.leb 48 n && Nat.leb n 57.

Definition matchesAtom (atom : Atom) (c : Ascii.ascii) : bool :=
  match atom with
  | Literal l => Ascii.eqb l c
  | Digit => isDigit c
  end.

(** The pattern matches a prefix of the string. *)
Fixpoint matchesAt (pattern : list Atom) (s : string) : bool :=
  match pattern, s with
  | [], _ => true
  | atom :: pattern, String c s => matchesAtom atom c && matchesAt pattern s
  | _ :: _, EmptyString => false
  end.

(** [regexp.exec(s)] finds a match: the pattern matches at some position. *)
Fixpoint exec (pattern : list Atom) (s : string) : bool :=
  matchesAt pattern s
  || match s with
     | String _ rest => exec pattern rest
     | EmptyString => false
     end.

Definition phoneNumberPattern : list Atom :=
  [ Literal "("; Digit; Digit; Digit; Literal ")"; Literal " ";
    Digit; Digit; Digit; Literal "-"; Digit; Digit; Digit; Digit ]%char.

(** [isPhoneNumber]. *)
Definition isPhoneNumber (val : string) : bool := exec phoneNumberPattern val.

(** [Object.fromEntries(formData)]: a later entry of a name replaces an
    earlier one. *)
Definition Object_fromEntries (entries : FormData) : gmap string string :=
  fold_left (fun object entry => <[entry.1 := entry.2]> object) entries ∅.

(** What the action does: the errors and the form sent back, or the call
    [userService.updateUserInfo(userId, { phoneNumber })] followed by the
    redirect to '/update-info-success'. *)
Inductive ActionResult :=
| json_errors (issues : list Issue) (formData : gmap string string)
| updateUserInfo_then_redirect (userId : string) (phoneNumber : string) (url : string).

(** [action]; [userId] is what [userService.getUserId()] returns. *)
Definition action (userId : string) (entries : FormData) : ActionResult :=
  let formData := Object_fromEntries entries in
  match formData !! "phoneNumber" with
  | None => json_errors [issue_invalid_type "phoneNumber" "Required"] formData
  | Some phoneNumber =>
      if isPhoneNumber phoneNumber then
        updateUserInfo_then_redirect userId phoneNumber "/update-info-success"
      else
        json_errors [issue_custom "phoneNumber" "Invalid phone number"] formData
  end.

(** A string of [n] digits. *)
Fixpoint allDigits (s : string) : bool :=
  match s with
  | EmptyString => true
  | String c s => isDigit c && allDigits s
  end.

Definition digits (n : nat) (s : string) : Prop :=
  String.length s = n ∧ allDigits s = true.

(** The string has a phone number of the form (ddd) ddd-dddd somewhere in
    it. *)
Definition containsPhoneNumber (val : string) : Prop :=
  ∃ before a b c after,
    val = before ++ "(" ++ a ++ ") " ++ b ++ "-" ++ c ++ after
    ∧ digits 3 a ∧ digits 3 b ∧ digits 4 c.

End UpdateInfo.

(** ** Access to governmental benefits (the edit route in
    routes/_gcweb-app.update-info.tsx) *)

Module DentalBenefits.

(** The object [dentalBenefits] that the action reads off the form. *)
Record DentalBenefitsForm := {
  form_hasFederalBenefits : option bool;
  form_federalSocialProgram : option string;
  form_hasProvincialTerritorialBenefits : option bool;
  form_provincialTerritorialSocialProgram : option string;
  form_province : option string;
}.

Record FederalBenefitsState := {
  hasFederalBenefits : bool;
  federalSocialProgram : option string;
}.

Record ProvincialTerritorialBenefitsState := {
  hasProvincialTerritorialBenefits : bool;
  provincialTerritorialSocialProgram : option string;
  province : option string;
}.

(** [formData.get(name) ? formData.get(name) === 'yes' : undefined]. *)
Definition yesOrNo (formData : FormData) (name : string) : option bool :=
  match formData_get formData name with
  | Some v => if String.eqb v "" then None else Some (String.eqb v "yes")
  | None => None
  end.

Definition dentalBenefitsFormData (formData : FormData) : DentalBenefitsForm :=
  {| form_hasFederalBenefits := yesOrNo formData "hasFederalBenefits";
     form_federalSocialProgram := optional_field formData "federalSocialProgram";
     form_hasProvincialTerritorialBenefits :=
       yesOrNo formData "hasProvincialTerritorialBenefits";
     form_provincialTerritorialSocialProgram :=
       optional_field formData "provincialTerritorialSocialProgram";
     form_province := optional_field formData "province" |}.

Section BenefitSchemas.
Context {validators : Validators}.

(** [federalBenefitsSchema.safeParse]: an answer that is [undefined] fails
    its type, and the refinement does not run. *)
Definition federalBenefitsSchema (data : DentalBenefitsForm)
    : list Issue + FederalBenefitsState :=
  match form_hasFederalBenefits data with
  | None =>
      inl [issue_invalid_type "hasFederalBenefits"
             "access-to-governmental-benefits:access-to-governmental-benefits.edit.error-message.federal-benefit-required"]
  | Some hasFederalBenefits =>
      let federalSocialProgram := trim <$> form_federalSocialProgram data in
      match (if hasFederalBenefits then
               required "federalSocialProgram"
                 "access-to-governmental-benefits:access-to-governmental-benefits.edit.error-message.federal-benefit-program-required"
                 federalSocialProgram
             else []) with
      | [] =>
          inr {| hasFederalBenefits := hasFederalBenefits;
                 federalSocialProgram :=
                   if hasFederalBenefits then federalSocialProgram else None |}
      | issues => inl issues
      end
  end.

(** [provincialTerritorialBenefitsSchema.safeParse]. *)
Definition provincialTerritorialBenefitsSchema (data : DentalBenefitsForm)
    : list Issue + ProvincialTerritorialBenefitsState :=
  match form_hasProvincialTerritorialBenefits data with
  | None =>
      inl [issue_invalid_type "hasProvincialTerritorialBenefits"
             "access-to-governmental-benefits:access-to-governmental-benefits.edit.error-message.provincial-benefit-required"]
  | Some hasProvincialTerritorialBenefits =>
      let provincialTerritorialSocialProgram :=
        trim <$> form_provincialTerritorialSocialProgram data in
      let province := trim <$> form_province data in
      match (if hasProvincialTerritorialBenefits then
               match nonEmpty province with
               | None =>
                   [issue_custom "province"
                      "access-to-governmental-benefits:access-to-governmental-benefits.edit.error-message.provincial-territorial-required"]
               | Some _ =>
                   required "provincialTerritorialSocialProgram"
                     "access-to-governmental-benefits:access-to-governmental-benefits.edit.error-message.provincial-benefit-program-required"
                     provincialTerritorialSocialProgram
               end
             else []) with
      | [] =>
          inr {| hasProvincialTerritorialBenefits := hasProvincialTerritorialBenefits;
                 provincialTerritorialSocialProgram :=
                   if hasProvincialTerritorialBenefits
                   then provincialTerritorialSocialProgram else None;
                 province :=
                   if hasProvincialTerritorialBenefits then province else None |}
      | issues => inl issues
      end
  end.

(** The issues of a schema's result ([error.format()] of a failure, [{}] of
    a success). *)
Definition issuesOf {A} (result : list Issue + A) : list Issue :=
  match result with
  | inl issues => issues
  | inr _ => []
  end.

(** What the action does after the CSRF check, up to the session
    validation: the errors of both schemas sent back, or the two parsed
    states with which it goes on (to set 'personal-info-updated' in the
    session and redirect to the view page; the parsed states are not used
    again). *)
Definition parseDentalBenefits (formData : FormData)
    : list Issue + (FederalBenefitsState * ProvincialTerritorialBenefitsState) :=
  let dentalBenefits := dentalBenefitsFormData formData in
  let parsedFederalBenefitsResult := federalBenefitsSchema dentalBenefits in
  let parsedProvincialTerritorialBenefitsResult :=
    provincialTerritorialBenefitsSchema dentalBenefits in
  match parsedFederalBenefitsResult, parsedProvincialTerritorialBenefitsResult with
  | inr federal, inr provincial => inr (federal, provincial)
  | _, _ =>
      inl (issuesOf parsedFederalBenefitsResult
           ++ issuesOf parsedProvincialTerritorialBenefitsResult)%list
  end.

End BenefitSchemas.

End DentalBenefits.

Module Example.

Definition afterMarker (marker s : string) : option string :=
  match String.index 0 marker s with
  | Some n => Some (String.substring (n + String.length marker) (String.length s) s)
  | None => None
  end.

(** A [getPathById] in the style of the application's routes:
    "$lang+/_public+/apply+/$id+/adult-child/confirmation" with lang "en"
    and id "42" is "/en/apply/42/adult-child/confirmation". *)
Definition examplePathById (routeId : string) (params : Params) : string :=
  let lang := default "en" (params !! "lang") in
  let id := default "" (params !! "id") in
  match afterMarker "$id+/" routeId, afterMarker "$id/" routeId with
  | Some rest, _ | None, Some rest => "/" ++ lang ++ "/apply/" ++ id ++ "/" ++ rest
  | None, None => "/" ++ lang ++ "/" ++ default routeId (afterMarker "_public/" routeId)
  end.

(** A guard in the sense of spec section 4.2 for steps other than the
    confirmation step: a submitted state goes to the confirmation page, a
    state without a date of birth back to that step. *)
Definition exampleAuthorize (l : Loader) (params : Params) (request : Request)
    (state : ApplyState) : option string :=
  if truthy (state !! "submissionInfo") then
    Some (examplePathById "$lang/_public/apply/$id/adult/confirmation" params)
  else if is_undefined (state !! "dateOfBirth") then
    Some (examplePathById "$lang/_public/apply/$id/adult/date-of-birth" params)
  else None.

(** A schema that only requires a mailing address. *)
Definition exampleSchema (data : ContactInformationState)
    : string + ContactInformationState :=
  if String.eqb (mailingAddress data) "" then inl "mailingAddress: required" else inr data.

Definition exampleEnv (features : list string) : Env :=
  {| ENABLED_FEATURES := features; COMMUNICATION_METHOD_EMAIL_ID := "775170001" |}.

Definition importedWith (features : list string) : Imported :=
  {| BenefitApplicationRequest := ApplyState;
     getPathById := examplePathById;
     getEnv := exampleEnv features;
     toBenefitApplicationRequestFromApplyAdultState := fun state => delete "editMode" state;
     authorize := exampleAuthorize;
     personalInformationSchema := exampleSchema |}.

Definition params : Params := {[ "lang" := "en"; "id" := "42" ]}.

Definition preferences : CommunicationPreferencesState :=
  {| preferredLanguage := "en"; preferredMethod := "775170001";
     cp_email := Some "old@example.com"; cp_confirmEmail := Some "old@example.com" |}.

(** An adult-child application with taxes filed and a date of birth, and no
    applicant information yet. *)
Definition adultChildState : ApplyState :=
  {[ "id" := VString "42"; "typeOfApplication" := VString "adult-child";
     "taxFiling2023" := VBool true; "dateOfBirth" := VString "1980-01-01" ]}.

(** The same application after submission. *)
Definition submittedAdultChildState : ApplyState :=
  <[ "submissionInfo" :=
       VSubmissionInfo {| confirmationCode := "ABC123";
                          submittedOn := "2024-05-01T12:00:00.000Z" |} ]> adultChildState.

(** A complete adult application that has not been submitted. *)
Definition adultState : ApplyState :=
  {[ "id" := VString "42"; "typeOfApplication" := VString "adult";
     "taxFiling2023" := VBool true; "dateOfBirth" := VString "1980-01-01";
     "communicationPreferences" := VCommunicationPreferences preferences ]}.

(** The same application after submission. *)
Definition submittedAdultState : ApplyState :=
  <[ "submissionInfo" :=
       VSubmissionInfo {| confirmationCode := "ABC123";
                          submittedOn := "2024-05-01T12:00:00.000Z" |} ]> adultState.

Definition sessionWith (state : ApplyState) : Session :=
  {[ "csrfToken" := SvString "token"; getSessionName "42" := SvApplyState state ]}.

Definition requestTo (path : string) (form : FormData) : Request :=
  {| request_pathname := path; request_formData := form |}.

(** A submit form whose CAPTCHA response the example verifier refuses, and
    one it accepts. *)
Definition robotForm : FormData :=
  [("_csrf", "token"); ("_action", "submit"); ("h-captcha-response", "robot")].

Definition submitForm : FormData :=
  [("_csrf", "token"); ("_action", "submit"); ("h-captcha-response", "human")].

(** The back action, with a CAPTCHA response the example verifier refuses. *)
Definition backForm : FormData :=
  [("_csrf", "token"); ("_action", "back"); ("h-captcha-response", "robot")].

(** A form with a token that is not the session's. *)
Definition forgedForm : FormData :=
  [("_csrf", "guess"); ("_action", "submit"); ("h-captcha-response", "human")].

(** A contact form without a mailing address. *)
Definition incompleteContactForm : FormData :=
  [("_csrf", "token"); ("email", "new@example.com"); ("mailingCity", "Ottawa")].

Definition contactForm : FormData :=
  [("_csrf", "token"); ("email", "new@example.com"); ("confirmEmail", "new@example.com");
   ("mailingAddress", "1 Main St"); ("mailingCountry", "CAN"); ("mailingCity", "Ottawa");
   ("copyMailingAddress", "copy")].

(** A submission service that confirms every call, with a code that counts
    the calls it has seen; a CAPTCHA verifier that rejects "robot". *)
Definition services {imports : Imported} : Services :=
  {| verifyHCaptchaResponse := fun hCaptchaResponse _ =>
       negb (String.eqb hCaptchaResponse "robot");
     answerSubmitApplication := fun seen _ =>
       Confirmed (if decide (seen = []) then "ABC123" else "XYZ789");
     nowISOString := "2024-05-01T12:00:00.000Z" |}.

(** A submission service whose call fails. *)
Definition failingServices {imports : Imported} : Services :=
  {| verifyHCaptchaResponse := fun _ _ => true;
     answerSubmitApplication := fun _ _ => Rejected "503 Service Unavailable";
     nowISOString := "2024-05-01T12:00:00.000Z" |}.

Definition worldWith {imports : Imported} (state : ApplyState) : World :=
  {| w_session := sessionWith state; w_submitted := []; w_verified := [] |}.

Definition adultReview (form : FormData) : Request :=
  requestTo "/en/apply/42/adult/review-information" form.

Definition childReview (form : FormData) : Request :=
  requestTo "/en/apply/42/child/review-child-information" form.

Definition contactInformation : Request :=
  requestTo "/en/apply/42/child/contact-information" contactForm.

(** The environment without and with the CAPTCHA feature. *)
Definition plain : Imported := importedWith [].
Definition withCaptcha : Imported := importedWith ["hcaptcha"].

(** The step payloads of two steps of the wizard. *)
Definition dateOfBirthStep : ApplyState := {[ "dateOfBirth" := VString "1990-02-03" ]}.
Definition preferencesStep : ApplyState :=
  {[ "communicationPreferences" := VCommunicationPreferences preferences;
     "editMode" := VBool true ]}.

(** One confirmation code for an email, created at 1000 and expiring two
    days later. *)
Definition codes : list SubscriptionApiMock.SubscriptionConfirmationCode :=
  [ {| SubscriptionApiMock.id := "0000101";
       SubscriptionApiMock.email := "user@example.com";
       SubscriptionApiMock.confirmationCode := "0101";
       SubscriptionApiMock.createdDate := 1000;
       SubscriptionApiMock.expiryDate := 172801000 |} ].

Definition verifyBody (code : string) : gmap string SubscriptionApiMock.Json :=
  {[ "email" := SubscriptionApiMock.JString "user@example.com";
     "confirmationCode" := SubscriptionApiMock.JString code ]}.

(** *** Inputs for the further properties *)


Definition requestBody : gmap string SubscriptionApiMock.Json :=
  {[ "email" := SubscriptionApiMock.JString "user@example.com" ]}.

(** The subscriptions of two users. *)
Definition subscription (id userId msLanguageCode alertTypeCode : string)
    : SubscriptionsMock.Subscription :=
  {| SubscriptionsMock.id := id;
     SubscriptionsMock.userId := userId;
     SubscriptionsMock.msLanguageCode := msLanguageCode;
     SubscriptionsMock.alertTypeCode := alertTypeCode |}.


(** [trim] for spaces, an email check that looks for '@', postal codes
    checked by their length, and issues formatted as the list of their
    paths. *)
Fixpoint trimStart (s : string) : string :=
  match s with
  | String c rest => if Ascii.eqb c " " then trimStart rest else s
  | EmptyString => s
  end.

Fixpoint trimEnd (s : string) : string :=
  match s with
  | String c rest =>
      match trimEnd rest with
      | EmptyString => if Ascii.eqb c " " then EmptyString else String c EmptyString
      | trimmed => String c trimmed
      end
  | EmptyString => EmptyString
  end.

Definition issuePath (issue : Issue) : string :=
  match issue with
  | issue_invalid_type path _ | issue_too_small path _
  | issue_too_big path _ | issue_custom path _ => path
  end.

Definition validators : Validators :=
  {| trim := fun s => trimEnd (trimStart s);
     isEmail := fun s =>
       match String.index 0 "@" s with Some _ => true | None => false end;
     isValidPhoneNumber := fun s => Nat.leb 10 (String.length s);
     formatInternational := fun s => "+1 " ++ s;
     isAllValidInputCharacters := fun _ => true;
     isValidPostalCode := fun country postalCode =>
       if String.eqb country "CAN" then Nat.eqb (String.length postalCode) 7
       else Nat.eqb (String.length postalCode) 5;
     isValidCanadianPostalCode := fun province postalCode =>
       negb (String.eqb province "ON") || String.prefix "K" postalCode;
     formatPostalCode := fun _ postalCode => postalCode;
     CANADA_COUNTRY_ID := "CAN";
     USA_COUNTRY_ID := "USA";
     format := fun issues => String.concat ", " (map issuePath issues);
     transformFlattenedError := fun issues => String.concat ", " (map issuePath issues) |}.

(** The imports with the contact-information schema of the source. *)
Definition withSourceSchema : Imported :=
  withPersonalInformationSchema plain (validators := validators).

(** An application of the child flow before the communication-preference
    step. *)
Definition childState : ApplyState :=
  {[ "id" := VString "42"; "typeOfApplication" := VString "child";
     "dateOfBirth" := VString "1980-01-01" ]}.

Definition preferenceForm : FormData :=
  [("_csrf", "token"); ("preferredLanguage", "en"); ("preferredMethod", "775170001");
   ("email", " new@example.com "); ("confirmEmail", "new@example.com")].

Definition communicationPreference : Request :=
  requestTo "/en/apply/42/child/communication-preference" preferenceForm.

Definition storedPreferences : CommunicationPreferencesState :=
  {| preferredLanguage := "en"; preferredMethod := "775170001";
     cp_email := Some "new@example.com"; cp_confirmEmail := Some "new@example.com" |}.

(** A contact form for an address in Canada, and one with an email of only
    a space. *)
Definition canadianContactForm : FormData :=
  [("_csrf", "token"); ("email", "new@example.com"); ("confirmEmail", "new@example.com");
   ("mailingAddress", "1 Main St"); ("mailingCountry", "CAN"); ("mailingProvince", "ON");
   ("mailingCity", "Ottawa"); ("mailingPostalCode", "K1A 0B1");
   ("copyMailingAddress", "copy")].

Definition blankEmailContactForm : FormData :=
  [("_csrf", "token"); ("email", " "); ("confirmEmail", "not an email");
   ("mailingAddress", "1 rue Principale"); ("mailingCountry", "FRA");
   ("mailingCity", "Paris"); ("copyMailingAddress", "copy")].

(** A Redis database as a map from keys to values, with session data
    written as is. *)
Definition redis : SessionService.RedisImports :=
  {| SessionService.Redis := gmap string string;
     SessionService.SessionData := string;
     SessionService.redisService_set := fun key value _ db => <[key := value]> db;
     SessionService.redisService_get := fun key db => db !! key;
     SessionService.redisService_del := fun key db => delete key db;
     SessionService.JSON_stringify := fun data => data;
     SessionService.JSON_parse := fun value => value;
     SessionService.SESSION_EXPIRES_SECONDS := 3600 |}.

(** Two letters of one type, and three letter types. *)
Definition letter (id name : string) : Letters.LetterInfo :=
  {| Letters.letter_id := id; Letters.name := name;
     Letters.referenceId := "ref-" ++ id; Letters.issuedOn := "2024-05-01" |}.

Definition letterType (code nameEn nameFr : string) : Letters.LetterType :=
  {| Letters.code := code; Letters.nameEn := nameEn; Letters.nameFr := nameFr |}.

Definition lettersImports : Letters.LettersImports :=
  {| Letters.featureEnabled := fun feature => String.eqb feature "view-letters";
     Letters.handleSessionValidation := None;
     Letters.getUserId := "user-1";
     Letters.getLetterInfoByClientId := fun _ _ sortOrder =>
       match sortOrder with
       | Letters.asc => [letter "1" "ACC"; letter "2" "ACC"]
       | Letters.desc => [letter "2" "ACC"; letter "1" "ACC"]
       end;
     Letters.getAllLetterTypes :=
       [letterType "DEN" "Denial" "Refus"; letterType "ACC" "Acceptance" "Acceptation";
        letterType "INV" "Invoice" "Facture"];
     Letters.getNameByLanguage := fun language type =>
       if String.eqb language "fr" then Letters.nameFr type else Letters.nameEn type |}.

Definition benefitsForm : FormData :=
  [("_csrf", "token"); ("hasFederalBenefits", "no"); ("federalSocialProgram", "program-1");
   ("hasProvincialTerritorialBenefits", "yes"); ("province", "ON");
   ("provincialTerritorialSocialProgram", "program-2")].

End Example.

(** * Properties *)

(** ** JavaScript primitives *)

Lemma append_String (c : Ascii.ascii) (s t : string) :
  String c s ++ t = String c (s ++ t).
Proof. reflexivity. Qed.

Lemma substring_all (s : string) : String.substring 0 (String.length s) s = s.
Proof. induction s as [|c s IH]; simpl; [reflexivity|]. by rewrite IH. Qed.

Lemma substring_app_r (prefix s : string) (m : nat) :
  String.substring (String.length prefix) m (prefix ++ s) = String.substring 0 m s.
Proof.
  induction prefix as [|c prefix IH]; [reflexivity|].
  rewrite append_String. simpl. exact IH.
Qed.

Lemma substring_split (s : string) (k : nat) :
  (k ≤ String.length s)%nat →
  s = String.substring 0 k s ++ String.substring k (String.length s - k) s.
Proof.
  revert k. induction s as [|c s IH]; intros k Hk; simpl in *.
  - destruct k; [reflexivity|lia].
  - destruct k as [|k]; simpl.
    + by rewrite substring_all.
    + rewrite append_String. f_equal. apply IH. lia.
Qed.

Lemma length_app_string (s t : string) :
  String.length (s ++ t) = (String.length s + String.length t)%nat.
Proof.
  induction s as [|c s IH]; [reflexivity|].
  rewrite append_String. simpl. by rewrite IH.
Qed.

(** [endsWith] is what its name says. *)
Lemma endsWith_spec (s suffix : string) :
  endsWith s suffix = true ↔ ∃ prefix, s = prefix ++ suffix.
Proof.
  unfold endsWith. rewrite andb_true_iff, Nat.leb_le, String.eqb_eq. split.
  - intros [Hle Hsuffix].
    exists (String.substring 0 (String.length s - String.length suffix) s).
    pose proof (substring_split s (String.length s - String.length suffix)) as Hsplit.
    replace (String.length s - (String.length s - String.length suffix))%nat
      with (String.length suffix) in Hsplit by lia.
    rewrite Hsuffix in Hsplit. apply Hsplit. lia.
  - intros [prefix ->]. rewrite length_app_string. split; [lia|].
    replace (String.length prefix + String.length suffix - String.length suffix)%nat
      with (String.length prefix) by lia.
    rewrite substring_app_r. apply substring_all.
Qed.

(** [includes] is membership. *)
Lemma includes_spec (xs : list string) (x : string) :
  includes xs x = true ↔ x ∈ xs.
Proof.
  unfold includes. rewrite existsb_exists. split.
  - intros (y & Hin & ->%String.eqb_eq). by apply list_elem_of_In.
  - intros Hin. exists x. split; [by apply list_elem_of_In|apply String.eqb_refl].
Qed.

(** ** The adult-child route helpers *)

Section RouteHelperProperties.
Context {imports : Imported}.

Lemma loadApplyState_id (params : Params) (session : Session) (state : ApplyState) :
  loadApplyState params session = Returned state →
  ∃ id, params !! "id" = Some id
        ∧ session !! getSessionName id = Some (SvApplyState state).
Proof.
  unfold loadApplyState. intros Hload.
  destruct (params !! "id") as [id|]; [|discriminate].
  exists id. split; [reflexivity|].
  destruct (session !! getSessionName id) as [[s|st]|]; congruence.
Qed.

(** C1, as the code has it: a submitted state requested on a path other than
    the confirmation page is never returned; [loadApplyAdultChildState]
    throws a redirect to the confirmation page when the state belongs to the
    adult-child flow, and to the type-application page (the flow check comes
    first) when it belongs to another flow. *)
Theorem submitted_state_is_redirected
    (params : Params) (request : Request) (session : Session) (state : ApplyState) :
  loadApplyState params session = Returned state →
  truthy (state !! "submissionInfo") = true →
  endsWith (request_pathname request)
    (getPathById "$lang+/_public+/apply+/$id+/adult-child/confirmation" params) = false →
  loadApplyAdultChildState params request session =
    Thrown (ThrownResponse (redirect
      (if typeOfApplication_is state "adult-child"
       then getPathById "$lang+/_public+/apply+/$id+/adult-child/confirmation" params
       else getPathById "$lang+/_public+/apply+/$id+/type-application" params))).
Proof.
  intros Hload Hsubmitted Hpath.
  unfold loadApplyAdultChildState. rewrite Hload. simpl.
  destruct (typeOfApplication_is state "adult-child"); simpl; [|reflexivity].
  rewrite Hsubmitted, Hpath. reflexivity.
Qed.

(** What the code does where the redirect of C4 is commented out: a state of
    the adult-child flow that has not been submitted is returned on every
    path, the confirmation page included. *)
Lemma unsubmitted_state_is_returned
    (params : Params) (request : Request) (session : Session) (state : ApplyState) :
  loadApplyState params session = Returned state →
  typeOfApplication_is state "adult-child" = true →
  truthy (state !! "submissionInfo") = false →
  loadApplyAdultChildState params request session = Returned state.
Proof.
  intros Hload Hflow Hsubmitted.
  unfold loadApplyAdultChildState. rewrite Hload. simpl.
  rewrite Hflow, Hsubmitted. simpl.
  destruct (endsWith _ _); reflexivity.
Qed.

(** The checks the validation before the review step makes, in their order:
    a missing type of application goes to the type-application step, an
    application by a delegate to the application-delegate page, one of
    another flow to the type-application step; then a missing tax-filing
    answer goes to the tax-filing step, taxes not filed to the file-taxes
    page, and a missing date of birth to the date-of-birth step. *)
Theorem review_validation_redirects_to_earliest_missing
    (params : Params) (state : ApplyState) :
  (state !! "typeOfApplication" = None →
   validateApplyAdultChildStateForReview params state =
     Thrown (ThrownResponse (redirect
       (getPathById "$lang+/_public+/apply+/$id+/type-application" params))))
  ∧ (typeOfApplication_is state "delegate" = true →
     validateApplyAdultChildStateForReview params state =
       Thrown (ThrownResponse (redirect
         (getPathById "$lang+/_public+/apply+/$id+/application-delegate" params))))
  ∧ (is_Some (state !! "typeOfApplication") →
     typeOfApplication_is state "delegate" = false →
     typeOfApplication_is state "adult-child" = false →
     validateApplyAdultChildStateForReview params state =
       Thrown (ThrownResponse (redirect
         (getPathById "$lang+/_public+/apply+/$id+/type-application" params))))
  ∧ (typeOfApplication_is state "adult-child" = true →
     state !! "taxFiling2023" = None →
     validateApplyAdultChildStateForReview params state =
       Thrown (ThrownResponse (redirect
         (getPathById "$lang+/_public+/apply+/$id+/adult-child/tax-filing" params))))
  ∧ (typeOfApplication_is state "adult-child" = true →
     is_Some (state !! "taxFiling2023") →
     truthy (state !! "taxFiling2023") = false →
     validateApplyAdultChildStateForReview params state =
       Thrown (ThrownResponse (redirect
         (getPathById "$lang+/_public+/apply+/$id+/adult-child/file-taxes" params))))
  ∧ (typeOfApplication_is state "adult-child" = true →
     truthy (state !! "taxFiling2023") = true →
     state !! "dateOfBirth" = None →
     validateApplyAdultChildStateForReview params state =
       Thrown (ThrownResponse (redirect
         (getPathById "$lang+/_public+/apply+/$id+/adult-child/date-of-birth" params)))).
Proof.
  assert (typeOfApplication_is state "adult-child" = true →
          is_undefined (state !! "typeOfApplication") = false
          ∧ typeOfApplication_is state "delegate" = false) as Hflow.
  { unfold typeOfApplication_is.
    destruct (state !! "typeOfApplication") as [[s| | | | |]|]; try discriminate.
    intros ->%String.eqb_eq. split; reflexivity. }
  unfold validateApplyAdultChildStateForReview.
  repeat split.
  - intros ->. reflexivity.
  - intros Hdelegate. rewrite Hdelegate.
    unfold typeOfApplication_is in Hdelegate.
    destruct (state !! "typeOfApplication"); [reflexivity|discriminate].
  - intros [v Hv] Hdelegate Hother. rewrite Hv, Hdelegate, Hother. reflexivity.
  - intros Hadult Htax. destruct (Hflow Hadult) as [-> ->].
    rewrite Hadult, Htax. reflexivity.
  - intros Hadult [v Hv] Htax. destruct (Hflow Hadult) as [-> ->].
    rewrite Hadult, Htax, Hv. reflexivity.
  - intros Hadult Htax Hdob. destruct (Hflow Hadult) as [-> ->].
    rewrite Hadult, Htax, Hdob.
    destruct (state !! "taxFiling2023"); [reflexivity|discriminate].
Qed.

(** What the code does where C5 expects the later checks: an application of
    the adult-child flow with taxes filed and a date of birth passes the
    validation, whatever its other fields (the checks from
    applicantInformation on are commented out). *)
Lemma review_validation_passes (params : Params) (state : ApplyState) :
  typeOfApplication_is state "adult-child" = true →
  truthy (state !! "taxFiling2023") = true →
  is_Some (state !! "dateOfBirth") →
  validateApplyAdultChildStateForReview params state = Returned ().
Proof.
  intros Hadult Htax [dob Hdob].
  unfold validateApplyAdultChildStateForReview.
  assert (is_undefined (state !! "typeOfApplication") = false
          ∧ typeOfApplication_is state "delegate" = false) as [-> ->].
  { unfold typeOfApplication_is in *.
    destruct (state !! "typeOfApplication") as [[s| | | | |]|]; try discriminate.
    apply String.eqb_eq in Hadult as ->. split; reflexivity. }
  rewrite Hadult, Htax, Hdob.
  destruct (state !! "taxFiling2023"); [reflexivity|discriminate].
Qed.

End RouteHelperProperties.

(** ** Running the route actions *)

Section ProgramProperties.
Context {imports : Imported}.

Ltac enter_action Hguard Hcsrf :=
  simpl; rewrite Hguard; simpl; rewrite Hcsrf; simpl.

Lemma run_bind {A B} (svc : Services) (p : Prog A) (f : A → Prog B) (w : World) :
  run svc (p ≫= f) w =
    match run svc p w with
    | (Returned a, w') => run svc (f a) w'
    | (Thrown e, w') => (Thrown e, w')
    end.
Proof.
  revert w. induction p as [a|e|X e k IH]; intros w; simpl; try reflexivity.
  destruct (handle svc e w) as [x w']. apply IH.
Qed.

Lemma loadGuarded_Returned (l : Loader) (params : Params) (request : Request)
    (session : Session) (state : ApplyState) :
  loadGuarded l params request session = Returned state →
  loadApplyState params session = Returned state
  ∧ authorize l params request state = None.
Proof.
  unfold loadGuarded. destruct (loadApplyState params session) as [st|e]; simpl.
  - destruct (authorize l params request st) eqn:Hauth; [discriminate|].
    intros [= ->]. auto.
  - discriminate.
Qed.

Lemma run_saveApplyState (svc : Services) (params : Params) (partial current : ApplyState)
    (w : World) :
  loadApplyState params (w_session w) = Returned current →
  run svc (saveApplyState params partial) w =
    (Returned (partial ∪ current),
     withSession
       (<[getSessionName (default "" (params !! "id")) :=
            SvApplyState (partial ∪ current)]> (w_session w)) w).
Proof.
  intros Hload. unfold saveApplyState. simpl. rewrite Hload. reflexivity.
Qed.

(** The state of application [params.id] after a save. *)
Lemma loadApplyState_saved (params : Params) (session : Session)
    (current new : ApplyState) :
  loadApplyState params session = Returned current →
  loadApplyState params
    (<[getSessionName (default "" (params !! "id")) := SvApplyState new]> session)
  = Returned new.
Proof.
  intros Hload. destruct (loadApplyState_id _ _ _ Hload) as (id & Hid & _).
  unfold loadApplyState. rewrite Hid. simpl. rewrite lookup_insert_eq. reflexivity.
Qed.

(** ... and after [clearApplyState]. *)
Lemma loadApplyState_cleared (params : Params) (session : Session) :
  loadApplyState params (delete (getSessionName (default "" (params !! "id"))) session)
  = Thrown NotFoundError.
Proof.
  unfold loadApplyState. destruct (params !! "id") as [id|]; [|reflexivity].
  simpl. rewrite lookup_delete_eq. reflexivity.
Qed.

(** The adult review action on a submit request whose CAPTCHA check passes
    and whose submission is confirmed. *)
Lemma run_adult_submit_confirmed (svc : Services) (params : Params) (request : Request)
    (w : World) (state : ApplyState) (code : string) :
  loadGuarded ApplyAdultStateForReview params request (w_session w) = Returned state →
  isSubmitRequest (w_session w) request →
  captchaPasses svc request →
  answerSubmitApplication svc (w_submitted w)
    (toBenefitApplicationRequestFromApplyAdultState state) = Confirmed code →
  run svc (adult_review_information_action params request) w =
    (Returned (redirect (getPathById "$lang/_public/apply/$id/adult/confirmation" params)),
     {| w_session :=
          <[sessionNameOf params :=
              SvApplyState
                ({["submissionInfo" :=
                     VSubmissionInfo {| confirmationCode := code;
                                        submittedOn := nowISOString svc |}]} ∪ state)]>
            (w_session w);
        w_submitted :=
          w_submitted w ++ [toBenefitApplicationRequestFromApplyAdultState state];
        w_verified := verifiedAfter request w |}).
Proof.
  intros Hguard [Hcsrf Haction] Hcaptcha Hanswer.
  destruct (loadGuarded_Returned _ _ _ _ _ Hguard) as [Hload _].
  unfold adult_review_information_action, loadApplyAdultStateForReview.
  enter_action Hguard Hcsrf.
  rewrite Haction. simpl.
  unfold captchaPasses, verifiedAfter, hCaptchaEnabled, hCaptchaResponseOf in *.
  destruct (includes (ENABLED_FEATURES getEnv) "hcaptcha"); simpl.
  - rewrite (Hcaptcha eq_refl). simpl. rewrite Hanswer. simpl.
    rewrite Hload. reflexivity.
  - rewrite Hanswer. simpl. rewrite Hload. reflexivity.
Qed.

(** ... whose submission is rejected: the error is thrown on, and nothing is
    saved. *)
Lemma run_adult_submit_rejected (svc : Services) (params : Params) (request : Request)
    (w : World) (state : ApplyState) (error : string) :
  loadGuarded ApplyAdultStateForReview params request (w_session w) = Returned state →
  isSubmitRequest (w_session w) request →
  captchaPasses svc request →
  answerSubmitApplication svc (w_submitted w)
    (toBenefitApplicationRequestFromApplyAdultState state) = Rejected error →
  run svc (adult_review_information_action params request) w =
    (Thrown (SubmissionError error),
     {| w_session := w_session w;
        w_submitted :=
          w_submitted w ++ [toBenefitApplicationRequestFromApplyAdultState state];
        w_verified := verifiedAfter request w |}).
Proof.
  intros Hguard [Hcsrf Haction] Hcaptcha Hanswer.
  unfold adult_review_information_action, loadApplyAdultStateForReview.
  enter_action Hguard Hcsrf.
  rewrite Haction. simpl.
  unfold captchaPasses, verifiedAfter, hCaptchaEnabled, hCaptchaResponseOf in *.
  destruct (includes (ENABLED_FEATURES getEnv) "hcaptcha"); simpl.
  - rewrite (Hcaptcha eq_refl). simpl. rewrite Hanswer. reflexivity.
  - rewrite Hanswer. reflexivity.
Qed.

(** ... and on a submit request whose CAPTCHA response is refused. *)
Lemma run_adult_captcha_refused (svc : Services) (params : Params) (request : Request)
    (w : World) (state : ApplyState) :
  loadGuarded ApplyAdultStateForReview params request (w_session w) = Returned state →
  isSubmitRequest (w_session w) request →
  hCaptchaEnabled = true →
  verifyHCaptchaResponse svc (hCaptchaResponseOf request) request = false →
  run svc (adult_review_information_action params request) w =
    (Returned (redirect (getPathById "$lang/_public/unable-to-process-request" params)),
     {| w_session := delete (sessionNameOf params) (w_session w);
        w_submitted := w_submitted w;
        w_verified := w_verified w ++ [hCaptchaResponseOf request] |}).
Proof.
  intros Hguard [Hcsrf Haction] Henabled Hrefused.
  unfold adult_review_information_action, loadApplyAdultStateForReview.
  enter_action Hguard Hcsrf.
  rewrite Haction. simpl.
  unfold hCaptchaEnabled, hCaptchaResponseOf in *.
  rewrite Henabled. simpl. rewrite Hrefused. reflexivity.
Qed.

(** The child review action verifies the CAPTCHA before it reads the form
    action, so a refused response clears the state whatever the action. *)
Lemma run_child_review_captcha_refused (svc : Services) (params : Params)
    (request : Request) (w : World) (state : ApplyState) :
  loadGuarded ApplyChildStateForReview params request (w_session w) = Returned state →
  csrfTokensMatch (w_session w) (request_formData request) = true →
  hCaptchaEnabled = true →
  verifyHCaptchaResponse svc (hCaptchaResponseOf request) request = false →
  run svc (child_review_child_information_action params request) w =
    (Returned (redirect (getPathById "$lang/_public/unable-to-process-request" params)),
     {| w_session := delete (sessionNameOf params) (w_session w);
        w_submitted := w_submitted w;
        w_verified := w_verified w ++ [hCaptchaResponseOf request] |}).
Proof.
  intros Hguard Hcsrf Henabled Hrefused.
  unfold child_review_child_information_action, loadApplyChildStateForReview.
  enter_action Hguard Hcsrf.
  unfold hCaptchaEnabled, hCaptchaResponseOf in *.
  rewrite Henabled. simpl. rewrite Hrefused. reflexivity.
Qed.

(** A state the guard turns away never reaches the body of the action. *)
Lemma run_adult_guard_redirects (svc : Services) (params : Params) (request : Request)
    (w : World) (state : ApplyState) (url : string) :
  loadApplyState params (w_session w) = Returned state →
  authorize ApplyAdultStateForReview params request state = Some url →
  run svc (adult_review_information_action params request) w =
    (Thrown (ThrownResponse (redirect url)), w).
Proof.
  intros Hload Hauth.
  unfold adult_review_information_action, loadApplyAdultStateForReview, loadGuarded.
  simpl. rewrite Hload. simpl. rewrite Hauth. reflexivity.
Qed.

(** C2: for a state that passes the review guard (complete and not yet
    submitted), a submit request that gets through the CSRF and CAPTCHA
    checks and whose submission the external service confirms with a code
    persists [submissionInfo = { confirmationCode, submittedOn: now }] in
    the wizard state, leaves the other properties as they were, and is
    answered with a redirect to the confirmation page. *)
Theorem confirmed_submission_is_persisted (svc : Services) (params : Params)
    (request : Request) (w : World) (state : ApplyState) (code : string) :
  loadGuarded ApplyAdultStateForReview params request (w_session w) = Returned state →
  isSubmitRequest (w_session w) request →
  captchaPasses svc request →
  answerSubmitApplication svc (w_submitted w)
    (toBenefitApplicationRequestFromApplyAdultState state) = Confirmed code →
  ∃ w',
    run svc (adult_review_information_action params request) w =
      (Returned (redirect
         (getPathById "$lang/_public/apply/$id/adult/confirmation" params)), w')
    ∧ loadApplyState params (w_session w') =
        Returned (<["submissionInfo" :=
                      VSubmissionInfo {| confirmationCode := code;
                                         submittedOn := nowISOString svc |}]> state).
Proof.
  intros Hguard Hsubmit Hcaptcha Hanswer.
  destruct (loadGuarded_Returned _ _ _ _ _ Hguard) as [Hload _].
  eexists. split.
  - apply run_adult_submit_confirmed; eassumption.
  - simpl. unfold sessionNameOf.
    rewrite (loadApplyState_saved _ _ _ _ Hload).
    rewrite insert_union_singleton_l. reflexivity.
Qed.

(** C3: when the external service rejects the submission, the action throws
    the service's error, the session (and with it the wizard state) is what
    it was, the state still passes the review guard, and the same request
    sent again succeeds once the service confirms. *)
Theorem rejected_submission_changes_nothing (svc : Services) (params : Params)
    (request : Request) (w : World) (state : ApplyState) (error : string) :
  loadGuarded ApplyAdultStateForReview params request (w_session w) = Returned state →
  isSubmitRequest (w_session w) request →
  captchaPasses svc request →
  answerSubmitApplication svc (w_submitted w)
    (toBenefitApplicationRequestFromApplyAdultState state) = Rejected error →
  ∃ w',
    run svc (adult_review_information_action params request) w =
      (Thrown (SubmissionError error), w')
    ∧ w_session w' = w_session w
    ∧ loadApplyState params (w_session w') = Returned state
    ∧ loadGuarded ApplyAdultStateForReview params request (w_session w') = Returned state
    ∧ ∀ (svc' : Services) (code : string),
        captchaPasses svc' request →
        answerSubmitApplication svc' (w_submitted w')
          (toBenefitApplicationRequestFromApplyAdultState state) = Confirmed code →
        ∃ w'',
          run svc' (adult_review_information_action params request) w' =
            (Returned (redirect
               (getPathById "$lang/_public/apply/$id/adult/confirmation" params)), w'')
          ∧ loadApplyState params (w_session w'') =
              Returned (<["submissionInfo" :=
                            VSubmissionInfo {| confirmationCode := code;
                                               submittedOn := nowISOString svc' |}]> state).
Proof.
  intros Hguard Hsubmit Hcaptcha Hanswer.
  destruct (loadGuarded_Returned _ _ _ _ _ Hguard) as [Hload _].
  eexists. split; [apply run_adult_submit_rejected; eassumption|].
  simpl. repeat split; try assumption.
  intros svc' code Hcaptcha' Hanswer'.
  eexists. split.
  - match goal with
    | |- run _ _ ?w0 = _ =>
        apply (run_adult_submit_confirmed svc' params request w0 state code)
    end; assumption.
  - simpl. unfold sessionNameOf.
    rewrite (loadApplyState_saved _ _ _ _ Hload).
    rewrite insert_union_singleton_l. reflexivity.
Qed.

(** C8: with the CAPTCHA feature enabled, a submit request on either review
    page whose CAPTCHA response the verifier refuses removes the wizard
    state of the application from the session and is answered with a
    redirect to the unable-to-process page; the submission service sees no
    call. *)
Theorem refused_captcha_clears_state (svc : Services) (params : Params)
    (request : Request) (w : World) :
  hCaptchaEnabled = true →
  isSubmitRequest (w_session w) request →
  verifyHCaptchaResponse svc (hCaptchaResponseOf request) request = false →
  (∀ state,
     loadGuarded ApplyAdultStateForReview params request (w_session w) = Returned state →
     ∃ w',
       run svc (adult_review_information_action params request) w =
         (Returned (redirect
            (getPathById "$lang/_public/unable-to-process-request" params)), w')
       ∧ w_session w' = delete (sessionNameOf params) (w_session w)
       ∧ loadApplyState params (w_session w') = Thrown NotFoundError
       ∧ w_submitted w' = w_submitted w)
  ∧ (∀ state,
       loadGuarded ApplyChildStateForReview params request (w_session w) = Returned state →
       ∃ w',
         run svc (child_review_child_information_action params request) w =
           (Returned (redirect
              (getPathById "$lang/_public/unable-to-process-request" params)), w')
         ∧ w_session w' = delete (sessionNameOf params) (w_session w)
         ∧ loadApplyState params (w_session w') = Thrown NotFoundError
         ∧ w_submitted w' = w_submitted w).
Proof.
  intros Henabled Hsubmit Hrefused. split; intros state Hguard.
  - eexists. split; [eapply run_adult_captcha_refused; eassumption|].
    simpl. repeat split. apply loadApplyState_cleared.
  - eexists. split.
    + eapply run_child_review_captcha_refused; try eassumption. apply Hsubmit.
    + simpl. repeat split. apply loadApplyState_cleared.
Qed.

(** C7, as the code has it: of two submit requests handled one after the
    other, the first (confirmed by the service) persists its submissionInfo
    and the second is turned away by the guard before any call: the service
    sees exactly one call and the persisted submissionInfo is the first's.
    The guard is assumed to redirect a submitted state (spec section 4.2);
    nothing makes the check and the later write atomic for requests that
    overlap. *)
Theorem sequential_submissions_call_service_once (svc svc' : Services)
    (params : Params) (request request' : Request) (w : World)
    (state : ApplyState) (code : string) :
  (∀ st, truthy (st !! "submissionInfo") = true →
         is_Some (authorize ApplyAdultStateForReview params request' st)) →
  loadGuarded ApplyAdultStateForReview params request (w_session w) = Returned state →
  isSubmitRequest (w_session w) request →
  captchaPasses svc request →
  answerSubmitApplication svc (w_submitted w)
    (toBenefitApplicationRequestFromApplyAdultState state) = Confirmed code →
  ∃ w1 url state1,
    run svc (adult_review_information_action params request) w =
      (Returned (redirect
         (getPathById "$lang/_public/apply/$id/adult/confirmation" params)), w1)
    ∧ run svc' (adult_review_information_action params request') w1 =
        (Thrown (ThrownResponse (redirect url)), w1)
    ∧ w_submitted w1 =
        (w_submitted w ++ [toBenefitApplicationRequestFromApplyAdultState state])%list
    ∧ loadApplyState params (w_session w1) = Returned state1
    ∧ submissionInfo state1 =
        Some {| confirmationCode := code; submittedOn := nowISOString svc |}.
Proof.
  intros Hsubmitted Hguard Hsubmit Hcaptcha Hanswer.
  destruct (loadGuarded_Returned _ _ _ _ _ Hguard) as [Hload _].
  pose proof (run_adult_submit_confirmed _ _ _ _ _ _ Hguard Hsubmit Hcaptcha Hanswer)
    as Hrun.
  match type of Hrun with _ = (_, ?w0) => set (w1 := w0) in * end.
  assert (loadApplyState params (w_session w1) =
          Returned (<["submissionInfo" :=
                        VSubmissionInfo {| confirmationCode := code;
                                           submittedOn := nowISOString svc |}]> state))
    as Hload1.
  { subst w1. simpl. unfold sessionNameOf.
    rewrite (loadApplyState_saved _ _ _ _ Hload).
    rewrite insert_union_singleton_l. reflexivity. }
  destruct (Hsubmitted
    (<["submissionInfo" :=
         VSubmissionInfo {| confirmationCode := code;
                            submittedOn := nowISOString svc |}]> state)) as [url Hurl].
  { rewrite lookup_insert_eq. reflexivity. }
  exists w1, url. eexists. repeat split.
  - exact Hrun.
  - eapply run_adult_guard_redirects; eassumption.
  - exact Hload1.
  - unfold submissionInfo. rewrite lookup_insert_eq. reflexivity.
Qed.

(** *** Saving step payloads *)

(** The state after a sequence of saves: each partial spread over what the
    saves before it left. *)
Lemma run_saveSteps (svc : Services) (params : Params) (partials : list ApplyState)
    (w : World) (current : ApplyState) :
  loadApplyState params (w_session w) = Returned current →
  ∃ w',
    run svc (saveSteps params partials) w = (Returned (), w')
    ∧ loadApplyState params (w_session w') =
        Returned (foldl (fun state partial => partial ∪ state) current partials)
    ∧ w_submitted w' = w_submitted w.
Proof.
  revert w current. induction partials as [|partial rest IH]; intros w current Hload.
  - exists w. simpl. auto.
  - cbn [saveSteps]. rewrite run_bind, (run_saveApplyState _ _ _ _ _ Hload).
    destruct (IH (withSession
                    (<[getSessionName (default "" (params !! "id")) :=
                         SvApplyState (partial ∪ current)]> (w_session w)) w)
                 (partial ∪ current)) as (w' & Hrun & Hstate & Hsubmitted).
    { simpl. apply (loadApplyState_saved _ _ _ _ Hload). }
    exists w'. auto.
Qed.

Lemma foldl_union_disjoint (partials : list ApplyState) (current : ApplyState) :
  map_disjoint_list partials →
  foldl (fun state partial => partial ∪ state) current partials = ⋃ partials ∪ current.
Proof.
  revert current. induction partials as [|partial rest IH]; intros current Hdisjoint.
  - simpl. rewrite (left_id_L ∅ (∪)). reflexivity.
  - apply map_disjoint_list_cons in Hdisjoint as [Hrest Hdisjoint].
    simpl. rewrite (IH _ Hdisjoint).
    rewrite (assoc_L (∪)). f_equal.
    apply map_union_comm, map_disjoint_union_list_l. exact Hrest.
Qed.

(** C6: a sequence of step submissions over disjoint step keys leaves the
    union of the submitted partials over the earlier state; any order of
    the same submissions gives the same state; every submitted payload is
    stored as submitted, and every property no submission names, in
    particular every previously set one, keeps its value. *)
Theorem disjoint_saves_give_the_union (svc : Services) (params : Params)
    (partials : list ApplyState) (w : World) (current : ApplyState) :
  loadApplyState params (w_session w) = Returned current →
  map_disjoint_list partials →
  ∃ final,
    loadApplyState params (w_session (run svc (saveSteps params partials) w).2)
      = Returned final
    ∧ final = ⋃ partials ∪ current
    ∧ (∀ reordered, reordered ≡ₚ partials →
         loadApplyState params (w_session (run svc (saveSteps params reordered) w).2)
           = Returned final)
    ∧ (∀ partial key payload,
         partial ∈ partials → partial !! key = Some payload →
         final !! key = Some payload)
    ∧ (∀ key,
         (∀ partial, partial ∈ partials → partial !! key = None) →
         final !! key = current !! key)
    ∧ (∀ key, is_Some (current !! key) → is_Some (final !! key)).
Proof.
  intros Hload Hdisjoint.
  exists (⋃ partials ∪ current). repeat split.
  - destruct (run_saveSteps svc params partials w current Hload)
      as (w' & Hrun & Hstate & _).
    rewrite Hrun. simpl. rewrite Hstate.
    rewrite foldl_union_disjoint by assumption. reflexivity.
  - intros reordered Hperm.
    destruct (run_saveSteps svc params reordered w current Hload)
      as (w' & Hrun & Hstate & _).
    rewrite Hrun. simpl. rewrite Hstate.
    rewrite foldl_union_disjoint.
    + rewrite (map_union_list_Permutation reordered partials); [reflexivity|assumption|].
      by rewrite Hperm.
    + by rewrite Hperm.
  - intros partial key payload Hin Hkey.
    apply lookup_union_Some_l.
    eapply lookup_union_list_Some_2; eassumption.
  - intros key Hnone. apply lookup_union_r.
    apply lookup_union_list_None, Forall_forall. exact Hnone.
  - intros key Hset. apply lookup_union_is_Some. auto.
Qed.

(** *** The contact-information step of the child flow *)

Lemma email_copyMailingToHome (data : ContactInformationState) :
  email (copyMailingToHome data) = email data.
Proof. unfold copyMailingToHome. destruct (copyMailingAddress data); reflexivity. Qed.

(** The state stored by a successful submission of the step. *)
Lemma run_contact_information_saved (svc : Services) (params : Params)
    (request : Request) (w : World) (state : ApplyState)
    (data : ContactInformationState) :
  loadGuarded ApplyChildState params request (w_session w) = Returned state →
  csrfTokensMatch (w_session w) (request_formData request) = true →
  personalInformationSchema (contactInformationFormData (request_formData request))
    = inr data →
  ∃ redirected w',
    run svc (child_contact_information_action params request) w =
      (Returned redirected, w')
    ∧ loadApplyState params (w_session w') =
        Returned
          (let saved :=
             {["contactInformation" := VContactInformation (copyMailingToHome data)]}
             ∪ state in
           match communicationPreferences state with
           | Some c =>
               if truthy_string (email data)
                  && String.eqb (preferredMethod c) (COMMUNICATION_METHOD_EMAIL_ID getEnv)
               then {["communicationPreferences" :=
                        VCommunicationPreferences (withEmail c (email data))]} ∪ saved
               else saved
           | None => saved
           end).
Proof.
  intros Hguard Hcsrf Hschema.
  destruct (loadGuarded_Returned _ _ _ _ _ Hguard) as [Hload _].
  unfold child_contact_information_action, loadApplyChildState.
  enter_action Hguard Hcsrf. rewrite Hschema.
  simpl. rewrite Hload. simpl.
  set (saved := {["contactInformation" := VContactInformation (copyMailingToHome data)]}
                ∪ state).
  set (w1 := withSession _ w).
  assert (loadApplyState params (w_session w1) = Returned saved) as Hload1
    by apply (loadApplyState_saved _ _ _ _ Hload).
  rewrite email_copyMailingToHome.
  unfold preferredMethod_is.
  destruct (communicationPreferences state) as [c|].
  - destruct (truthy_string (email data)
              && String.eqb (preferredMethod c) (COMMUNICATION_METHOD_EMAIL_ID getEnv)).
    + simpl. simpl in Hload1. rewrite Hload1. simpl.
      destruct (truthy (state !! "editMode")); simpl;
        (do 2 eexists; split; [reflexivity|]);
        apply (loadApplyState_saved _ _ _ _ Hload1).
    + simpl.
      destruct (truthy (state !! "editMode")); simpl;
        (do 2 eexists; split; [reflexivity|]); exact Hload1.
  - rewrite andb_false_r. simpl.
    destruct (truthy (state !! "editMode")); simpl;
      (do 2 eexists; split; [reflexivity|]); exact Hload1.
Qed.



(** *** Requests the actions turn away or send back *)

(** A CSRF token that does not match the session's is answered with a 400
    response thrown by each of the three actions, before anything is saved,
    verified or submitted. *)
Theorem csrf_mismatch_is_rejected (svc : Services) (params : Params)
    (request : Request) (w : World) :
  csrfTokensMatch (w_session w) (request_formData request) = false →
  (∀ state,
     loadGuarded ApplyAdultStateForReview params request (w_session w) = Returned state →
     run svc (adult_review_information_action params request) w =
       (Thrown (ThrownResponse (response "Invalid CSRF token" 400)), w))
  ∧ (∀ state,
       loadGuarded ApplyChildStateForReview params request (w_session w) = Returned state →
       run svc (child_review_child_information_action params request) w =
         (Thrown (ThrownResponse (response "Invalid CSRF token" 400)), w))
  ∧ (∀ state,
       loadGuarded ApplyChildState params request (w_session w) = Returned state →
       run svc (child_contact_information_action params request) w =
         (Thrown (ThrownResponse (response "Invalid CSRF token" 400)), w)).
Proof.
  intros Hcsrf. repeat split; intros state Hguard.
  - unfold adult_review_information_action, loadApplyAdultStateForReview.
    simpl. rewrite Hguard. simpl. rewrite Hcsrf. reflexivity.
  - unfold child_review_child_information_action, loadApplyChildStateForReview.
    simpl. rewrite Hguard. simpl. rewrite Hcsrf. reflexivity.
  - unfold child_contact_information_action, loadApplyChildState.
    simpl. rewrite Hguard. simpl. rewrite Hcsrf. reflexivity.
Qed.

(** The back action of the adult review page leaves edit mode and returns
    to the benefits step; the CAPTCHA is not verified and nothing is
    submitted, whether or not the CAPTCHA feature is enabled. *)
Theorem adult_review_back_leaves_edit_mode (svc : Services) (params : Params)
    (request : Request) (w : World) (state : ApplyState) :
  loadGuarded ApplyAdultStateForReview params request (w_session w) = Returned state →
  csrfTokensMatch (w_session w) (request_formData request) = true →
  formData_get (request_formData request) "_action" = Some "back" →
  run svc (adult_review_information_action params request) w =
    (Returned (redirect (getPathById
       "$lang/_public/apply/$id/adult/federal-provincial-territorial-benefits" params)),
     {| w_session :=
          <[sessionNameOf params := SvApplyState (<["editMode" := VBool false]> state)]>
            (w_session w);
        w_submitted := w_submitted w;
        w_verified := w_verified w |}).
Proof.
  intros Hguard Hcsrf Haction.
  destruct (loadGuarded_Returned _ _ _ _ _ Hguard) as [Hload _].
  unfold adult_review_information_action, loadApplyAdultStateForReview.
  enter_action Hguard Hcsrf.
  rewrite Haction. simpl. rewrite Hload. simpl.
  rewrite <- insert_union_singleton_l. reflexivity.
Qed.

(** On the child review page the CAPTCHA is verified before the form action
    is read: a refused response clears the wizard state whatever the action
    is, the back action included. *)
Theorem child_review_refused_captcha_clears_state_on_any_action (svc : Services)
    (params : Params) (request : Request) (w : World) (state : ApplyState) :
  loadGuarded ApplyChildStateForReview params request (w_session w) = Returned state →
  csrfTokensMatch (w_session w) (request_formData request) = true →
  hCaptchaEnabled = true →
  verifyHCaptchaResponse svc (hCaptchaResponseOf request) request = false →
  ∃ w',
    run svc (child_review_child_information_action params request) w =
      (Returned (redirect
         (getPathById "$lang/_public/unable-to-process-request" params)), w')
    ∧ loadApplyState params (w_session w') = Thrown NotFoundError.
Proof.
  intros Hguard Hcsrf Henabled Hrefused.
  eexists. split.
  - eapply run_child_review_captcha_refused; eassumption.
  - simpl. apply loadApplyState_cleared.
Qed.

(** A contact-information form that fails validation is answered with the
    errors as JSON; nothing is saved. *)
Theorem invalid_contact_information_is_not_saved (svc : Services) (params : Params)
    (request : Request) (w : World) (state : ApplyState) (errors : string) :
  loadGuarded ApplyChildState params request (w_session w) = Returned state →
  csrfTokensMatch (w_session w) (request_formData request) = true →
  personalInformationSchema (contactInformationFormData (request_formData request))
    = inl errors →
  run svc (child_contact_information_action params request) w =
    (Returned (json errors), w).
Proof.
  intros Hguard Hcsrf Hschema.
  unfold child_contact_information_action, loadApplyChildState.
  enter_action Hguard Hcsrf. rewrite Hschema. reflexivity.
Qed.

(** *** One request, turn by turn *)

Lemma run_sync {A} (svc : Services) (p : Prog A) (w : World) :
  run svc (sync svc p w).1 (sync svc p w).2 = run svc p w.
Proof.
  revert w. induction p as [a|e|X e k IH]; intros w; simpl; try reflexivity.
  destruct (is_await e); [reflexivity|].
  destruct (handle svc e w) as [x w']. apply IH.
Qed.

Lemma run_turn {A} (svc : Services) (p : Prog A) (w : World) :
  run svc (turn svc p w).1 (turn svc p w).2 = run svc p w.
Proof.
  destruct p as [a|e|X e k]; simpl; try reflexivity.
  destruct (is_await e); destruct (handle svc e w) as [x w']; apply run_sync.
Qed.

(** A request that is given every turn ends as [run] says, while the other
    request waits untouched: [interleave] extends [run]. *)
Lemma interleave_alone {A} (svc : Services) (p q : Prog A) (w : World) :
  ∃ (turns : nat) (w' : World) (done : Prog A),
    interleave svc (replicate turns true) p q w = (done, q, w')
    ∧ finished done = Some (run svc p w).1
    ∧ w' = (run svc p w).2.
Proof.
  assert (∀ (p : Prog A) (w : World),
            ∃ (turns : nat) (w' : World) (done : Prog A),
              interleave svc (replicate turns true) (sync svc p w).1 q (sync svc p w).2
                = (done, q, w')
              ∧ finished done = Some (run svc p w).1
              ∧ w' = (run svc p w).2) as Hsync.
  { clear p w. induction p as [a|e|X e k IH]; intros w.
    - exists 0, w, (Ret a). simpl. auto.
    - exists 0, w, (Throw e). simpl. auto.
    - simpl. destruct (is_await e) eqn:Hawait.
      + destruct (handle svc e w) as [x w1] eqn:Hhandle.
        destruct (IH x w1) as (turns & w' & done & Hrun & Hdone & Hworld).
        exists (S turns), w', done. simpl. rewrite Hawait, Hhandle.
        destruct (sync svc (k x) w1) as [p1 w2]. auto.
      + destruct (handle svc e w) as [x w1]. apply IH. }
  destruct p as [a|e|X e k].
  - exists 0, w, (Ret a). simpl. auto.
  - exists 0, w, (Throw e). simpl. auto.
  - destruct (is_await e) eqn:Hawait.
    + destruct (Hsync (Vis e k) w) as (turns & w' & done & Hrun & Hdone & Hworld).
      simpl in Hrun. rewrite Hawait in Hrun. simpl in Hrun.
      exists turns, w', done. auto.
    + destruct (Hsync (Vis e k) w) as (turns & w' & done & Hrun & Hdone & Hworld).
      exists (S turns), w', done. split; [|auto].
      simpl in Hrun |- *. rewrite Hawait in Hrun |- *.
      destruct (handle svc e w) as [x w1].
      destruct (sync svc (k x) w1) as [p1 w2]. exact Hrun.
Qed.

End ProgramProperties.

(** ** The code-verification handler *)

Section VerifyProperties.
Import SubscriptionApiMock.

Lemma fold_later_spec (rows : list SubscriptionConfirmationCode)
    (first : SubscriptionConfirmationCode) :
  let latest := fold_left later rows first in
  latest ∈ first :: rows
  ∧ ∀ row, row ∈ first :: rows → (createdDate row ≤ createdDate latest)%Z.
Proof.
  revert first. induction rows as [|row rows IH]; intros first; simpl.
  - split; [left|]. intros row ->%list_elem_of_singleton. lia.
  - destruct (IH (later first row)) as [Hin Hmax]. split.
    + apply elem_of_cons in Hin as [->|Hin].
      * unfold later. destruct (createdDate first >? createdDate row)%Z.
        -- left.
        -- right. left.
      * right. right. exact Hin.
    + intros other Hother.
      assert (createdDate first ≤ createdDate (later first row)
              ∧ createdDate row ≤ createdDate (later first row))%Z as [Hfirst Hrow].
      { unfold later.
        destruct (Z.gtb_spec (createdDate first) (createdDate row)); lia. }
      apply elem_of_cons in Hother as [->|Hother].
      * etransitivity; [exact Hfirst|]. apply Hmax. left.
      * apply elem_of_cons in Hother as [->|Hother].
        -- etransitivity; [exact Hrow|]. apply Hmax. left.
        -- apply Hmax. right. exact Hother.
Qed.

(** The code the handler compares with is one of the codes stored for the
    email, and none of them was created later. *)
Lemma reduce_later_latest (rows : list SubscriptionConfirmationCode)
    (latest : SubscriptionConfirmationCode) :
  reduce later rows = Some latest →
  latest ∈ rows ∧ ∀ row, row ∈ rows → (createdDate row ≤ createdDate latest)%Z.
Proof.
  destruct rows as [|first rows]; simpl; [discriminate|].
  intros [= <-]. apply fold_later_spec.
Qed.

(** The status the handler reports for a well-formed request: no code when
    none is stored for the email; otherwise, for the latest code stored for
    the email (one of them, and none created later), valid exactly when the
    entered code is that code and the time is before its expiry, expired
    exactly when the entered code is that code and the time is after its
    expiry, a mismatch when the entered code is another one. *)
Lemma verify_statuses (table : list SubscriptionConfirmationCode) (timeEntered : Z)
    (enteredEmail enteredCode : string) :
  let body : gmap string Json :=
    {[ "email" := JString enteredEmail; "confirmationCode" := JString enteredCode ]} in
  (findMany table enteredEmail = [] → verify table timeEntered body = Returned noCode)
  ∧ ∀ latest,
      reduce later (findMany table enteredEmail) = Some latest →
      (latest ∈ findMany table enteredEmail
       ∧ ∀ row, row ∈ findMany table enteredEmail →
                (createdDate row ≤ createdDate latest)%Z)
      ∧ (verify table timeEntered body = Returned Valid
       ↔ confirmationCode latest = enteredCode ∧ (timeEntered < expiryDate latest)%Z)
      ∧ (verify table timeEntered body = Returned expired
         ↔ confirmationCode latest = enteredCode ∧ (timeEntered > expiryDate latest)%Z)
      ∧ (confirmationCode latest ≠ enteredCode →
         verify table timeEntered body = Returned mismatch).
Proof.
  intros body.
  assert (validateSubscriptionSchema body = Some (enteredEmail, enteredCode)) as Hbody.
  { unfold validateSubscriptionSchema, body.
    rewrite lookup_insert_eq, lookup_insert_ne by discriminate.
    rewrite lookup_singleton_eq. reflexivity. }
  unfold verify. rewrite Hbody. split.
  - intros ->. reflexivity.
  - intros latest Hlatest. split; [apply reduce_later_latest, Hlatest|].
    rewrite Hlatest.
    destruct (String.eqb_spec (confirmationCode latest) enteredCode) as [Hcode|Hcode];
      simpl.
    + destruct (Z.ltb_spec timeEntered (expiryDate latest)),
               (Z.gtb_spec timeEntered (expiryDate latest));
        repeat split; intros; try congruence; try lia; intuition (congruence || lia).
    + repeat split; intros; intuition congruence.
Qed.

(** What the code does at the instant of expiry, where C9 expects "expired":
    the latest code, entered correctly, is reported as a mismatch. *)
Lemma verify_at_expiry (table : list SubscriptionConfirmationCode)
    (enteredEmail enteredCode : string) (latest : SubscriptionConfirmationCode) :
  reduce later (findMany table enteredEmail) = Some latest →
  confirmationCode latest = enteredCode →
  verify table (expiryDate latest)
    {[ "email" := JString enteredEmail; "confirmationCode" := JString enteredCode ]}
  = Returned mismatch.
Proof.
  intros Hlatest Hcode. unfold verify, validateSubscriptionSchema.
  rewrite lookup_insert_eq, lookup_insert_ne by discriminate.
  rewrite lookup_singleton_eq, Hlatest.
  rewrite Z.ltb_irrefl, Z.gtb_ltb, Z.ltb_irrefl, !andb_false_r. reflexivity.
Qed.

End VerifyProperties.

(** * The model evaluated on concrete requests *)

(** A submitted adult-child application requested on the date-of-birth page
    is redirected to the confirmation page. *)
Lemma submitted_state_is_redirected_witness :
  loadApplyAdultChildState (imports := Example.plain) Example.params
    (Example.requestTo "/en/apply/42/adult-child/date-of-birth" [])
    (Example.sessionWith Example.submittedAdultChildState)
  = Thrown (ThrownResponse (redirect "/en/apply/42/adult-child/confirmation")).
Proof.
  apply (submitted_state_is_redirected (imports := Example.plain) Example.params
           (Example.requestTo "/en/apply/42/adult-child/date-of-birth" [])
           (Example.sessionWith Example.submittedAdultChildState)
           Example.submittedAdultChildState);
    reflexivity.
Defined.

(** C1 as stated fails: a submitted application of the adult flow requested
    on a page of the adult-child flow is redirected to the type-application
    page, not to the confirmation page. *)
Lemma submitted_adult_state_goes_to_type_application :
  truthy (Example.submittedAdultState !! "submissionInfo") = true
  ∧ endsWith "/en/apply/42/adult-child/date-of-birth"
      (getPathById (Imported := Example.plain)
         "$lang+/_public+/apply+/$id+/adult-child/confirmation" Example.params) = false
  ∧ loadApplyAdultChildState (imports := Example.plain) Example.params
      (Example.requestTo "/en/apply/42/adult-child/date-of-birth" [])
      (Example.sessionWith Example.submittedAdultState)
    = Thrown (ThrownResponse (redirect "/en/apply/42/type-application"))
  ∧ loadApplyAdultChildState (imports := Example.plain) Example.params
      (Example.requestTo "/en/apply/42/adult-child/date-of-birth" [])
      (Example.sessionWith Example.submittedAdultState)
    ≠ Thrown (ThrownResponse (redirect
        (getPathById (Imported := Example.plain)
           "$lang+/_public+/apply+/$id+/adult-child/confirmation" Example.params))).
Proof.
  repeat split; try reflexivity.
  vm_compute. discriminate.
Qed.

(** C4 on the code: an adult-child application that has not been submitted,
    requested on the confirmation page, is returned for rendering; no
    redirect to the terms-and-conditions page is thrown. *)
Lemma unsubmitted_state_is_served_the_confirmation_page :
  truthy (Example.adultChildState !! "submissionInfo") = false
  ∧ endsWith "/en/apply/42/adult-child/confirmation"
      (getPathById (Imported := Example.plain)
         "$lang+/_public+/apply+/$id+/adult-child/confirmation" Example.params) = true
  ∧ loadApplyAdultChildState (imports := Example.plain) Example.params
      (Example.requestTo "/en/apply/42/adult-child/confirmation" [])
      (Example.sessionWith Example.adultChildState)
    = Returned Example.adultChildState.
Proof. repeat split; reflexivity. Qed.

(** C5 on the code: for a state with a date of birth and no applicant
    information, the validation throws no redirect at all. *)
Lemma missing_applicant_information_is_not_redirected :
  is_Some (Example.adultChildState !! "dateOfBirth")
  ∧ Example.adultChildState !! "applicantInformation" = None
  ∧ validateApplyAdultChildStateForReview (imports := Example.plain) Example.params
      Example.adultChildState = Returned ()
  ∧ ∀ url, validateApplyAdultChildStateForReview (imports := Example.plain) Example.params
             Example.adultChildState ≠ Thrown (ThrownResponse (redirect url)).
Proof.
  repeat split; try reflexivity.
  - exists (VString "1980-01-01"). reflexivity.
  - intros url. vm_compute. discriminate.
Qed.

(** A confirmed submission, with the CAPTCHA feature on and an accepted
    response. *)
Lemma confirmed_submission_is_persisted_witness :
  ∃ w',
    run Example.services
      (adult_review_information_action (imports := Example.withCaptcha) Example.params
         (Example.adultReview Example.submitForm))
      (Example.worldWith Example.adultState)
    = (Returned (redirect "/en/apply/42/adult/confirmation"), w')
    ∧ loadApplyState Example.params (w_session w') =
        Returned (<["submissionInfo" :=
                      VSubmissionInfo {| confirmationCode := "ABC123";
                                         submittedOn := "2024-05-01T12:00:00.000Z" |}]>
                    Example.adultState).
Proof.
  apply (confirmed_submission_is_persisted (imports := Example.withCaptcha)
           Example.services Example.params (Example.adultReview Example.submitForm)
           (Example.worldWith Example.adultState) Example.adultState "ABC123").
  - reflexivity.
  - split; reflexivity.
  - intros _. reflexivity.
  - reflexivity.
Defined.

(** A rejected submission: the error is thrown and the session is the one
    the request found. *)
Lemma rejected_submission_changes_nothing_witness :
  ∃ w',
    run Example.failingServices
      (adult_review_information_action (imports := Example.plain) Example.params
         (Example.adultReview Example.submitForm))
      (Example.worldWith Example.adultState)
    = (Thrown (SubmissionError "503 Service Unavailable"), w')
    ∧ w_session w' = Example.sessionWith Example.adultState.
Proof.
  destruct (rejected_submission_changes_nothing (imports := Example.plain)
              Example.failingServices Example.params
              (Example.adultReview Example.submitForm)
              (Example.worldWith Example.adultState) Example.adultState
              "503 Service Unavailable") as (w' & Hrun & Hsession & _).
  - reflexivity.
  - split; reflexivity.
  - intros Henabled. vm_compute in Henabled. discriminate.
  - reflexivity.
  - exists w'. split; [exact Hrun | exact Hsession].
Defined.

(** Two steps saved one after the other leave both payloads in the state,
    next to what it held. *)
Lemma disjoint_saves_give_the_union_witness :
  ∃ final,
    loadApplyState Example.params
      (w_session
         (run (imports := Example.plain) Example.services
            (saveSteps Example.params [Example.dateOfBirthStep; Example.preferencesStep])
            (Example.worldWith {[ "id" := VString "42" ]})).2)
    = Returned final
    ∧ final !! "dateOfBirth" = Some (VString "1990-02-03")
    ∧ final !! "editMode" = Some (VBool true)
    ∧ final !! "id" = Some (VString "42").
Proof.
  destruct (disjoint_saves_give_the_union (imports := Example.plain) Example.services
              Example.params [Example.dateOfBirthStep; Example.preferencesStep]
              (Example.worldWith {[ "id" := VString "42" ]}) {[ "id" := VString "42" ]})
    as (final & Hfinal & -> & _).
  - reflexivity.
  - apply map_disjoint_list_cons. split; [|apply map_disjoint_list_cons; split].
    + repeat constructor. apply map_disjoint_spec. intros key x y Hx Hy.
      unfold Example.preferencesStep in Hx.
      apply lookup_insert_Some in Hx as [[<- _]|[_ Hx]].
      * vm_compute in Hy. discriminate.
      * apply lookup_singleton_Some in Hx as [<- _]. vm_compute in Hy. discriminate.
    + constructor.
    + apply map_disjoint_list_nil.
  - eexists. split; [exact Hfinal|]. repeat split; reflexivity.
Defined.

(** Two submit requests one after the other: one call, and the second
    request is redirected. *)
Lemma sequential_submissions_call_service_once_witness :
  ∃ w1 url state1,
    run Example.services
      (adult_review_information_action (imports := Example.plain) Example.params
         (Example.adultReview Example.submitForm))
      (Example.worldWith Example.adultState)
    = (Returned (redirect "/en/apply/42/adult/confirmation"), w1)
    ∧ run Example.services
        (adult_review_information_action (imports := Example.plain) Example.params
           (Example.adultReview Example.submitForm)) w1
      = (Thrown (ThrownResponse (redirect url)), w1)
    ∧ length (w_submitted w1) = 1
    ∧ loadApplyState Example.params (w_session w1) = Returned state1
    ∧ submissionInfo state1 =
        Some {| confirmationCode := "ABC123"; submittedOn := "2024-05-01T12:00:00.000Z" |}.
Proof.
  destruct (sequential_submissions_call_service_once (imports := Example.plain)
              Example.services Example.services Example.params
              (Example.adultReview Example.submitForm)
              (Example.adultReview Example.submitForm)
              (Example.worldWith Example.adultState) Example.adultState "ABC123")
    as (w1 & url & state1 & Hfirst & Hsecond & Hcalls & Hload & Hinfo).
  - intros st Hsubmitted. simpl. unfold Example.exampleAuthorize.
    rewrite Hsubmitted. eexists; reflexivity.
  - reflexivity.
  - split; reflexivity.
  - intros Henabled. vm_compute in Henabled. discriminate.
  - reflexivity.
  - exists w1, url, state1. repeat split; try assumption.
    rewrite Hcalls. reflexivity.
Defined.

(** C7 as stated fails: when the two submit requests overlap (each has
    loaded the state before the other saves), both pass the guard, the
    submission service sees two calls, and the submissionInfo that stays is
    the second's. *)
Lemma overlapping_submissions_call_service_twice :
  loadGuarded (imports := Example.plain) ApplyAdultStateForReview Example.params
    (Example.adultReview Example.submitForm)
    (Example.sessionWith Example.adultState) = Returned Example.adultState
  ∧ ∃ w',
      interleave Example.services [true; false; true; true; false; false]
        (adult_review_information_action (imports := Example.plain) Example.params
           (Example.adultReview Example.submitForm))
        (adult_review_information_action (imports := Example.plain) Example.params
           (Example.adultReview Example.submitForm))
        (Example.worldWith Example.adultState)
      = (Ret (redirect "/en/apply/42/adult/confirmation"),
         Ret (redirect "/en/apply/42/adult/confirmation"), w')
      ∧ length (w_submitted w') = 2
      ∧ ¬ (length (w_submitted w') ≤ 1)%nat
      ∧ (loadApplyState Example.params (w_session w') ≫= fun state =>
           Returned (submissionInfo state))
        = Returned (Some {| confirmationCode := "XYZ789";
                            submittedOn := "2024-05-01T12:00:00.000Z" |}).
Proof.
  split; [reflexivity|].
  eexists. split; [reflexivity|].
  split; [reflexivity|].
  split; [simpl; lia|].
  reflexivity.
Qed.

(** A refused CAPTCHA response on the adult and on the child review page. *)
Lemma refused_captcha_clears_state_witness :
  (∃ w',
     run Example.services
       (adult_review_information_action (imports := Example.withCaptcha) Example.params
          (Example.adultReview Example.robotForm))
       (Example.worldWith Example.adultState)
     = (Returned (redirect "/en/unable-to-process-request"), w')
     ∧ loadApplyState Example.params (w_session w') = Thrown NotFoundError
     ∧ w_submitted w' = [])
  ∧ (∃ w',
       run Example.services
         (child_review_child_information_action (imports := Example.withCaptcha)
            Example.params (Example.childReview Example.robotForm))
         (Example.worldWith Example.adultState)
       = (Returned (redirect "/en/unable-to-process-request"), w')
       ∧ loadApplyState Example.params (w_session w') = Thrown NotFoundError
       ∧ w_submitted w' = []).
Proof.
  destruct (refused_captcha_clears_state (imports := Example.withCaptcha) Example.services
              Example.params (Example.adultReview Example.robotForm)
              (Example.worldWith Example.adultState)) as [Hadult _];
    [reflexivity | split; reflexivity | reflexivity |].
  destruct (refused_captcha_clears_state (imports := Example.withCaptcha) Example.services
              Example.params (Example.childReview Example.robotForm)
              (Example.worldWith Example.adultState)) as [_ Hchild];
    [reflexivity | split; reflexivity | reflexivity |].
  split.
  - destruct (Hadult Example.adultState) as (w' & Hrun & _ & Hcleared & Hcalls);
      [reflexivity|].
    exists w'. auto.
  - destruct (Hchild Example.adultState) as (w' & Hrun & _ & Hcleared & Hcalls);
      [reflexivity|].
    exists w'. auto.
Defined.


(** C9 on the code: at the instant of expiry the stored code, entered
    correctly, is neither valid nor expired; the handler reports a
    mismatch. *)
Lemma matching_code_at_expiry_is_reported_as_mismatch :
  SubscriptionApiMock.reduce SubscriptionApiMock.later
    (SubscriptionApiMock.findMany Example.codes "user@example.com")
  = Some {| SubscriptionApiMock.id := "0000101";
            SubscriptionApiMock.email := "user@example.com";
            SubscriptionApiMock.confirmationCode := "0101";
            SubscriptionApiMock.createdDate := 1000;
            SubscriptionApiMock.expiryDate := 172801000 |}
  ∧ SubscriptionApiMock.verify Example.codes 172801000 (Example.verifyBody "0101")
    = Returned SubscriptionApiMock.mismatch
  ∧ SubscriptionApiMock.verify Example.codes 172800999 (Example.verifyBody "0101")
    = Returned SubscriptionApiMock.Valid
  ∧ SubscriptionApiMock.verify Example.codes 172801001 (Example.verifyBody "0101")
    = Returned SubscriptionApiMock.expired.
Proof. repeat split; reflexivity. Qed.

(** A delegate's application is sent to the application-delegate page. *)
Lemma review_validation_redirects_to_earliest_missing_witness :
  validateApplyAdultChildStateForReview (imports := Example.plain) Example.params
    {[ "id" := VString "42"; "typeOfApplication" := VString "delegate" ]}
  = Thrown (ThrownResponse (redirect "/en/apply/42/application-delegate")).
Proof.
  apply (review_validation_redirects_to_earliest_missing (imports := Example.plain)
           Example.params
           {[ "id" := VString "42"; "typeOfApplication" := VString "delegate" ]}).
  reflexivity.
Defined.

(** A forged CSRF token on the adult review page. *)
Lemma csrf_mismatch_is_rejected_witness :
  run Example.services
    (adult_review_information_action (imports := Example.withCaptcha) Example.params
       (Example.adultReview Example.forgedForm))
    (Example.worldWith Example.adultState)
  = (Thrown (ThrownResponse (response "Invalid CSRF token" 400)),
     Example.worldWith Example.adultState).
Proof.
  apply (csrf_mismatch_is_rejected (imports := Example.withCaptcha) Example.services
           Example.params (Example.adultReview Example.forgedForm)
           (Example.worldWith Example.adultState)) with (state := Example.adultState);
    reflexivity.
Defined.

(** The back action with the CAPTCHA feature on: nothing is verified. *)
Lemma adult_review_back_leaves_edit_mode_witness :
  (run Example.services
     (adult_review_information_action (imports := Example.withCaptcha) Example.params
        (Example.adultReview Example.backForm))
     (Example.worldWith Example.adultState)).1
  = Returned (redirect "/en/apply/42/adult/federal-provincial-territorial-benefits")
  ∧ w_verified
      (run Example.services
         (adult_review_information_action (imports := Example.withCaptcha) Example.params
            (Example.adultReview Example.backForm))
         (Example.worldWith Example.adultState)).2 = [].
Proof.
  rewrite (adult_review_back_leaves_edit_mode (imports := Example.withCaptcha)
             Example.services Example.params (Example.adultReview Example.backForm)
             (Example.worldWith Example.adultState) Example.adultState);
    [split; reflexivity | reflexivity ..].
Defined.

(** The back action on the child review page with a refused CAPTCHA. *)
Lemma child_review_refused_captcha_clears_state_on_any_action_witness :
  ∃ w',
    run Example.services
      (child_review_child_information_action (imports := Example.withCaptcha) Example.params
         (Example.childReview Example.backForm))
      (Example.worldWith Example.adultState)
    = (Returned (redirect "/en/unable-to-process-request"), w')
    ∧ loadApplyState Example.params (w_session w') = Thrown NotFoundError.
Proof.
  apply (child_review_refused_captcha_clears_state_on_any_action
           (imports := Example.withCaptcha) Example.services Example.params
           (Example.childReview Example.backForm)
           (Example.worldWith Example.adultState) Example.adultState);
    reflexivity.
Defined.

(** A contact form without a mailing address. *)
Lemma invalid_contact_information_is_not_saved_witness :
  run Example.services
    (child_contact_information_action (imports := Example.plain) Example.params
       (Example.requestTo "/en/apply/42/child/contact-information"
          Example.incompleteContactForm))
    (Example.worldWith Example.adultState)
  = (Returned (json "mailingAddress: required"), Example.worldWith Example.adultState).
Proof.
  apply (invalid_contact_information_is_not_saved (imports := Example.plain)
           Example.services Example.params
           (Example.requestTo "/en/apply/42/child/contact-information"
              Example.incompleteContactForm)
           (Example.worldWith Example.adultState) Example.adultState);
    reflexivity.
Defined.

(** The stored code entered one millisecond before it expires. *)
Lemma verify_statuses_witness :
  SubscriptionApiMock.verify Example.codes 172800999 (Example.verifyBody "0101")
  = Returned SubscriptionApiMock.Valid.
Proof.
  destruct (verify_statuses Example.codes 172800999 "user@example.com" "0101")
    as [_ Hlatest].
  destruct (Hlatest (SubscriptionApiMock.Build_SubscriptionConfirmationCode
                       "0000101" "user@example.com" "0101" 1000 172801000)
              eq_refl) as (_ & Hvalid & _).
  apply Hvalid. split; reflexivity.
Defined.

(** * Further properties of the code *)

(** ** The subscription API mock: requesting a code, then verifying it *)

Section CodeRequestProperties.
Import SubscriptionApiMock CodeRequestMock.







(** A body without an email string is answered with a 400 response by both
    handlers, and by the verification handler also when the code is
    missing. *)
Theorem malformed_code_requests_are_refused (table : list SubscriptionConfirmationCode)
    (timeEntered now : Z) (requestBody : gmap string Json) :
  (∀ e, requestBody !! "email" ≠ Some (JString e)) →
  requestCode table timeEntered now requestBody
    = Thrown (ThrownResponse (response "" 400))
  ∧ verify table timeEntered requestBody
    = Thrown (ThrownResponse (response "" 400)).
Proof.
  intros Hemail.
  unfold requestCode, requestCodeSubscriptionSchema, verify, validateSubscriptionSchema.
  destruct (requestBody !! "email") as [[e|n|]|]; try (split; reflexivity).
  contradiction (Hemail e). reflexivity.
Qed.


End CodeRequestProperties.

(** ** The subscription service in front of the mock *)

Section SubscriptionsProperties.
Import SubscriptionApiMock SubscriptionsMock SubscriptionService.












End SubscriptionsProperties.

(** ** The communication-preference step of the child flow *)

Section CommunicationPreferenceProperties.
Context {imports : Imported} {validators : Validators}.

Lemma nonEmpty_Some (val : option string) (s : string) :
  nonEmpty val = Some s ↔ val = Some s ∧ s ≠ "".
Proof.
  unfold nonEmpty. destruct val as [v|]; [|split; [discriminate|intros [[=] _]]].
  destruct (String.eqb_spec v "") as [->|Hne]; split.
  - discriminate.
  - intros [[= <-] Hne]. contradiction.
  - intros [= ->]. auto.
  - intros [[= ->] _]. reflexivity.
Qed.

Lemma nonEmpty_truthy (val : option string) :
  truthy_string val = bool_decide (is_Some (nonEmpty val)).
Proof.
  unfold truthy_string, nonEmpty. destruct val as [v|]; [|reflexivity].
  destruct (String.eqb v ""); reflexivity.
Qed.

Lemma min_1_nil (path message val : string) :
  min_1 path message val = [] → val ≠ "".
Proof. unfold min_1. intros Hmin ->. discriminate Hmin. Qed.

(** What the schema accepts. *)
Lemma formSchema_inr (state : ApplyState) (data parsedData : CommunicationPreferencesState) :
  formSchema state data = inr parsedData →
  parsedData = formSchema_trimmed data
  ∧ formSchema_object parsedData = []
  ∧ formSchema_superRefine state parsedData = [].
Proof.
  unfold formSchema.
  destruct (formSchema_object _ ++ formSchema_superRefine _ _)%list eqn:Hissues;
    [|discriminate].
  intros [= <-]. apply app_eq_nil in Hissues. tauto.
Qed.

(** The action, once the state has passed the guard and the CSRF token
    matches. *)
Lemma run_communication_preference (svc : Services) (params : Params)
    (request : Request) (w : World) (state : ApplyState) :
  loadGuarded ApplyChildState params request (w_session w) = Returned state →
  csrfTokensMatch (w_session w) (request_formData request) = true →
  run svc (child_communication_preference_action params request) w =
    match formSchema state (communicationPreferenceFormData (request_formData request)) with
    | inl issues => (Returned (json (format issues)), w)
    | inr parsedData =>
        (Returned (redirect (getPathById
           (if truthy (state !! "editMode")
            then "$lang/_public/apply/$id/child/review-adult-information"
            else "$lang/_public/apply/$id/child/review-child-information") params)),
         withSession
           (<[sessionNameOf params :=
                SvApplyState
                  ({[ "communicationPreferences" := VCommunicationPreferences parsedData;
                      "editMode" := VBool true ]} ∪ state)]> (w_session w)) w)
    end.
Proof.
  intros Hguard Hcsrf.
  destruct (loadGuarded_Returned _ _ _ _ _ Hguard) as [Hload _].
  unfold child_communication_preference_action, loadApplyChildState.
  simpl. rewrite Hguard. simpl. rewrite Hcsrf. simpl.
  destruct (formSchema state _) as [issues|parsedData]; [reflexivity|].
  simpl. rewrite Hload. simpl.
  destruct (truthy (state !! "editMode")); reflexivity.
Qed.

(** The communication-preference action is decided by the schema: a form
    with issues is answered with them and nothing is saved; a form without
    stores the parsed preferences and puts the application in edit mode,
    leaving every other property of the state and the external services
    alone, and redirects to the review page of the adult when the
    application was in edit mode already, of the child otherwise. *)
Theorem communication_preference_is_stored_in_edit_mode (svc : Services)
    (params : Params) (request : Request) (w : World) (state : ApplyState) :
  loadGuarded ApplyChildState params request (w_session w) = Returned state →
  csrfTokensMatch (w_session w) (request_formData request) = true →
  match formSchema state (communicationPreferenceFormData (request_formData request)) with
  | inl issues =>
      run svc (child_communication_preference_action params request) w
      = (Returned (json (format issues)), w)
  | inr parsedData =>
      ∃ w' state',
        run svc (child_communication_preference_action params request) w
        = (Returned (redirect (getPathById
             (if truthy (state !! "editMode")
              then "$lang/_public/apply/$id/child/review-adult-information"
              else "$lang/_public/apply/$id/child/review-child-information") params)),
           w')
        ∧ loadApplyState params (w_session w') = Returned state'
        ∧ communicationPreferences state' = Some parsedData
        ∧ state' !! "editMode" = Some (VBool true)
        ∧ (∀ key, key ≠ "communicationPreferences" → key ≠ "editMode" →
                  state' !! key = state !! key)
        ∧ w_submitted w' = w_submitted w
        ∧ w_verified w' = w_verified w
  end.
Proof.
  intros Hguard Hcsrf.
  destruct (loadGuarded_Returned _ _ _ _ _ Hguard) as [Hload _].
  rewrite (run_communication_preference _ _ _ _ _ Hguard Hcsrf).
  destruct (formSchema state _) as [issues|parsedData]; [reflexivity|].
  eexists.
  exists ({[ "communicationPreferences" := VCommunicationPreferences parsedData;
             "editMode" := VBool true ]} ∪ state).
  split; [reflexivity|]. simpl.
  split; [apply (loadApplyState_saved _ _ _ _ Hload)|].
  split; [|split; [|split; [|split; reflexivity]]].
  - unfold communicationPreferences.
    rewrite lookup_union_l', lookup_insert_eq; [reflexivity|].
    rewrite lookup_insert_eq. eauto.
  - rewrite lookup_union_l'; rewrite lookup_insert_ne, lookup_singleton_eq by discriminate;
      eauto.
  - intros key Hprefs Hedit.
    rewrite lookup_union_r; [reflexivity|].
    rewrite lookup_insert_ne, lookup_singleton_ne by congruence. reflexivity.
Qed.

(** Preferences that pass the schema name a language and a method, and, when
    the method is the email method, carry a non-empty email that
    [validator.isEmail] accepts; the confirmation email is the same email
    when the contact information of the application has no email, and is
    not looked at when it has one. *)
Theorem email_method_needs_a_valid_email (state : ApplyState)
    (data parsedData : CommunicationPreferencesState) :
  formSchema state data = inr parsedData →
  preferredLanguage parsedData ≠ ""
  ∧ preferredMethod parsedData ≠ ""
  ∧ (preferredMethod parsedData = COMMUNICATION_METHOD_EMAIL_ID getEnv →
     ∃ entered,
       cp_email parsedData = Some entered
       ∧ entered ≠ ""
       ∧ isEmail entered = true
       ∧ (truthy_string (contactInformation state ≫= email) = false →
          cp_confirmEmail parsedData = Some entered)).
Proof.
  intros Hschema. apply formSchema_inr in Hschema as (_ & Hobject & Hrefine).
  unfold formSchema_object in Hobject.
  apply app_eq_nil in Hobject as [Hlanguage Hobject].
  apply app_eq_nil in Hobject as [Hmethod _].
  split; [exact (min_1_nil _ _ _ Hlanguage)|].
  split; [exact (min_1_nil _ _ _ Hmethod)|].
  intros Hemail. unfold formSchema_superRefine in Hrefine.
  rewrite Hemail, String.eqb_refl in Hrefine.
  apply app_eq_nil in Hrefine as [Hfirst Hconfirm].
  destruct (nonEmpty (cp_email parsedData)) as [entered|] eqn:Hgiven; [|discriminate].
  apply nonEmpty_Some in Hgiven as [Hgiven Hne].
  destruct (isEmail entered) eqn:Hvalid; [|discriminate].
  exists entered. repeat split; try assumption.
  intros Hcontact. rewrite Hcontact in Hconfirm. simpl in Hconfirm.
  destruct (nonEmpty (cp_confirmEmail parsedData)) as [confirmEmail|] eqn:Hconfirmed;
    [|discriminate].
  apply nonEmpty_Some in Hconfirmed as [Hconfirmed _].
  destruct (isEmail confirmEmail); [|discriminate].
  simpl in Hconfirm.
  destruct (bool_decide_reflect (cp_email parsedData = Some confirmEmail)) as [Hsame|];
    [|discriminate].
  congruence.
Qed.

End CommunicationPreferenceProperties.

(** ** The contact-information step of the child flow, with its schema *)

Section ContactInformationProperties.
Context {imports : Imported} {validators : Validators}.

Lemma required_nil (path message : string) (val : option string) :
  required path message val = [] → is_Some (nonEmpty val).
Proof. unfold required. destruct (nonEmpty val); [eauto|discriminate]. Qed.

(** What the schema accepts. *)
Lemma personalInformationSchema_inr (data parsedData : ContactInformationState) :
  personalInformationSchema_safeParse data = inr parsedData →
  let val := personalInformationSchema_trimmed data in
  parsedData = personalInformationSchema_transform val
  ∧ personalInformationSchema_object val = []
  ∧ personalInformationSchema_superRefine val = [].
Proof.
  unfold personalInformationSchema_safeParse.
  destruct (personalInformationSchema_object _
            ++ personalInformationSchema_superRefine _)%list eqn:Hissues; [|discriminate].
  intros [= <-]. apply app_eq_nil in Hissues. tauto.
Qed.

Ltac split_issues :=
  repeat match goal with
         | H : (_ ++ _)%list = [] |- _ => apply app_eq_nil in H as [? ?]
         end.

(** The contact information that passes the schema has both addresses once
    the mailing address has been copied where the form asks for it. *)
Lemma accepted_contact_information_has_both_addresses
    (data parsedData : ContactInformationState) :
  personalInformationSchema_safeParse data = inr parsedData →
  hasBothAddresses (copyMailingToHome parsedData).
Proof.
  intros Hschema. apply personalInformationSchema_inr in Hschema as (-> & Hobject & Hrefine).
  set (val := personalInformationSchema_trimmed data) in *.
  unfold personalInformationSchema_object in Hobject.
  unfold personalInformationSchema_superRefine in Hrefine.
  split_issues.
  assert (mailingAddress val ≠ "") as Haddress by (eapply min_1_nil; eassumption).
  assert (mailingCountry val ≠ "") as Hcountry by (eapply min_1_nil; eassumption).
  assert (mailingCity val ≠ "") as Hcity by (eapply min_1_nil; eassumption).
  unfold hasBothAddresses, copyMailingToHome.
  change (copyMailingAddress (personalInformationSchema_transform val))
    with (copyMailingAddress data).
  change (copyMailingAddress val) with (copyMailingAddress data) in *.
  destruct (copyMailingAddress data) eqn:Hcopy; simpl.
  - assert (∀ s, s ≠ "" → is_Some (nonEmpty (Some s))) as Hsome.
    { intros s Hs. exists s. apply nonEmpty_Some. auto. }
    do 3 (split; [assumption|]).
    split; [|split]; apply Hsome; assumption.
  - match goal with
    | H : (if negb false then _ else _) = [] |- _ => simpl in H
    end.
    split_issues.
    do 3 (split; [assumption|]).
    split; [|split]; eapply required_nil; eassumption.
Qed.

(** The contact-information action with the schema of the source: whenever
    the state passes the guard and the CSRF token matches, the action
    either answers with the validation errors and saves nothing, or stores
    a contact information that has both addresses: address, country and
    city of the mailing address are not empty, and those of the home
    address are not either, whether the form gave them or asked for the
    mailing address to be copied. *)
Theorem saved_contact_information_has_both_addresses (svc : Services)
    (params : Params) (request : Request) (w : World) (state : ApplyState) :
  isTheSchemaOfTheSource →
  loadGuarded ApplyChildState params request (w_session w) = Returned state →
  csrfTokensMatch (w_session w) (request_formData request) = true →
  ∃ answer w',
    run svc (child_contact_information_action params request) w = (Returned answer, w')
    ∧ ((∃ errors, answer = json errors ∧ w' = w)
       ∨ (∃ state' c,
            loadApplyState params (w_session w') = Returned state'
            ∧ contactInformation state' = Some c
            ∧ hasBothAddresses c)).
Proof.
  intros Hsource Hguard Hcsrf.
  destruct (personalInformationSchema
              (contactInformationFormData (request_formData request)))
    as [errors|parsedData] eqn:Hschema.
  - exists (json errors), w. split.
    + unfold child_contact_information_action, loadApplyChildState.
      simpl. rewrite Hguard. simpl. rewrite Hcsrf. simpl. rewrite Hschema. reflexivity.
    + left. eauto.
  - destruct (run_contact_information_saved svc _ _ _ _ _ Hguard Hcsrf Hschema)
      as (answer & w' & Hrun & Hload').
    exists answer, w'. split; [exact Hrun|]. right.
    rewrite Hsource in Hschema.
    destruct (personalInformationSchema_safeParse _) as [|parsed] eqn:Hparse;
      [discriminate|].
    injection Hschema as ->.
    pose proof (accepted_contact_information_has_both_addresses _ _ Hparse) as Hboth.
    eexists. exists (copyMailingToHome parsedData).
    split; [exact Hload'|]. split; [|exact Hboth].
    unfold contactInformation.
    destruct (communicationPreferences state) as [c|].
    + destruct (truthy_string (email parsedData)
                && String.eqb (preferredMethod c) (COMMUNICATION_METHOD_EMAIL_ID getEnv)).
      * rewrite lookup_union_r by (apply lookup_singleton_ne; discriminate).
        rewrite lookup_union_l', lookup_singleton_eq; [reflexivity|].
        rewrite lookup_singleton_eq. eauto.
      * rewrite lookup_union_l', lookup_singleton_eq; [reflexivity|].
        rewrite lookup_singleton_eq. eauto.
    + rewrite lookup_union_l', lookup_singleton_eq; [reflexivity|].
      rewrite lookup_singleton_eq. eauto.
Qed.

(** The emails of a contact information that passes the schema are in one
    of three cases: a non-empty email that [validator.isEmail] accepts with
    the same confirmation email; no email and no confirmation email; or an
    email that is empty once trimmed, in which case nothing is checked of
    the confirmation email. *)
Theorem contact_emails_are_checked_together (data parsedData : ContactInformationState) :
  personalInformationSchema_safeParse data = inr parsedData →
  (∃ entered,
     email parsedData = Some entered ∧ entered ≠ "" ∧ isEmail entered = true
     ∧ confirmEmail parsedData = Some entered)
  ∨ (email parsedData = None ∧ nonEmpty (confirmEmail parsedData) = None)
  ∨ email parsedData = Some "".
Proof.
  intros Hschema. apply personalInformationSchema_inr in Hschema as (-> & _ & Hrefine).
  remember (personalInformationSchema_trimmed data) as val eqn:Hval. clear Hval.
  unfold personalInformationSchema_superRefine in Hrefine.
  apply app_eq_nil in Hrefine as [Hemails _].
  change (email (personalInformationSchema_transform val)) with (email val).
  change (confirmEmail (personalInformationSchema_transform val)) with (confirmEmail val).
  destruct (email val) as [entered|] eqn:Hemail.
  - simpl in Hemails.
    destruct (String.eqb_spec entered "") as [->|Hne]; [right; right; reflexivity|].
    left. exists entered. simpl in Hemails.
    apply app_eq_nil in Hemails as [Hfirst Hconfirm].
    destruct (isEmail entered) eqn:Hvalid; [|discriminate].
    destruct (nonEmpty (confirmEmail val)) as [confirmed|] eqn:Hconfirmed; [|discriminate].
    apply nonEmpty_Some in Hconfirmed as [Hconfirmed _].
    destruct (isEmail confirmed); [|discriminate]. simpl in Hconfirm.
    destruct (bool_decide_reflect (Some entered = Some confirmed)) as [[= ->]|];
      [|discriminate].
    auto.
  - right. left. split; [reflexivity|].
    rewrite nonEmpty_truthy in Hemails.
    destruct (nonEmpty (confirmEmail val)) as [confirmed|]; [|reflexivity].
    rewrite bool_decide_eq_true_2 in Hemails by eauto. discriminate.
Qed.

(** The postal codes of a contact information that passes the schema: with a
    mailing address in Canada or the USA there is a province and a postal
    code valid for the country (and, in Canada, for the province), stored
    formatted; with a mailing address outside Canada the postal code is not
    a valid Canadian one. A home address that is not copied from the
    mailing address is held to the first rule, and to the second only when
    it is in the USA: the check sits inside the branch of the two
    countries. *)
Theorem accepted_postal_codes_fit_the_country (data parsedData : ContactInformationState) :
  personalInformationSchema_safeParse data = inr parsedData →
  let val := personalInformationSchema_trimmed data in
  (isCanadaOrUsa (mailingCountry val) = true →
   ∃ province postalCode,
     nonEmpty (mailingProvince val) = Some province
     ∧ nonEmpty (mailingPostalCode val) = Some postalCode
     ∧ isValidPostalCode (mailingCountry val) postalCode = true
     ∧ (mailingCountry val = CANADA_COUNTRY_ID →
        isValidCanadianPostalCode province postalCode = true)
     ∧ mailingPostalCode parsedData
       = Some (formatPostalCode (mailingCountry val) postalCode))
  ∧ (mailingCountry val ≠ CANADA_COUNTRY_ID →
     ∀ postalCode, nonEmpty (mailingPostalCode val) = Some postalCode →
       isValidPostalCode CANADA_COUNTRY_ID postalCode = false)
  ∧ (copyMailingAddress val = false →
     ∀ country, homeCountry val = Some country → isCanadaOrUsa country = true →
     ∃ province postalCode,
       nonEmpty (homeProvince val) = Some province
       ∧ nonEmpty (homePostalCode val) = Some postalCode
       ∧ isValidPostalCode country postalCode = true
       ∧ (country = CANADA_COUNTRY_ID →
          isValidCanadianPostalCode province postalCode = true)
       ∧ (country ≠ CANADA_COUNTRY_ID →
          isValidPostalCode CANADA_COUNTRY_ID postalCode = false)).
Proof.
  intros Hschema val. subst val.
  apply personalInformationSchema_inr in Hschema as (-> & Hobject & Hrefine).
  remember (personalInformationSchema_trimmed data) as val eqn:Hval. clear Hval.
  assert (mailingCountry val ≠ "") as Hcountry.
  { unfold personalInformationSchema_object in Hobject. split_issues.
    eapply min_1_nil; eassumption. }
  unfold personalInformationSchema_superRefine in Hrefine.
  apply app_eq_nil in Hrefine as [_ Hrefine].
  apply app_eq_nil in Hrefine as [Hmailing Hrefine].
  apply app_eq_nil in Hrefine as [Hforeign Hhome].
  assert (∀ prefix country province postalCode,
            provinceAndPostalCode prefix country province postalCode = [] →
            ∃ p c, nonEmpty province = Some p ∧ nonEmpty postalCode = Some c
                   ∧ isValidPostalCode country c = true
                   ∧ (country = CANADA_COUNTRY_ID →
                      isValidCanadianPostalCode p c = true)) as Hcheck.
  { intros prefix country province postalCode Hnil.
    unfold provinceAndPostalCode in Hnil. apply app_eq_nil in Hnil as [Hp Hc].
    apply required_nil in Hp as [p Hp]. rewrite Hp in Hc.
    destruct (nonEmpty postalCode) as [c|]; [|discriminate].
    exists p, c. repeat split; [exact Hp|..].
    - destruct (isValidPostalCode country c); [reflexivity|discriminate].
    - intros ->. destruct (isValidPostalCode CANADA_COUNTRY_ID c); [|discriminate].
      rewrite String.eqb_refl in Hc. simpl in Hc.
      destruct (isValidCanadianPostalCode p c); [reflexivity|discriminate]. }
  assert (∀ prefix country postalCode c p,
            postalCodeOfAnotherCountry prefix country postalCode = [] →
            nonEmpty country = Some c → nonEmpty postalCode = Some p →
            c ≠ CANADA_COUNTRY_ID →
            isValidPostalCode CANADA_COUNTRY_ID p = false) as Hother.
  { intros prefix country postalCode c p Hnil Hc Hp Hne.
    unfold postalCodeOfAnotherCountry in Hnil. rewrite Hc, Hp in Hnil.
    destruct (String.eqb_spec c CANADA_COUNTRY_ID); [contradiction|].
    destruct (isValidPostalCode CANADA_COUNTRY_ID p); [discriminate|reflexivity]. }
  split; [|split].
  - intros Hin. rewrite Hin in Hmailing.
    destruct (Hcheck _ _ _ _ Hmailing) as (p & c & Hp & Hc & Hvalid & Hprovince).
    exists p, c. repeat split; try assumption.
    simpl. rewrite Hc.
    destruct (String.eqb_spec (mailingCountry val) ""); [contradiction|reflexivity].
  - intros Hne postalCode Hpostal.
    eapply Hother; [exact Hforeign| |exact Hpostal|exact Hne].
    simpl. destruct (String.eqb_spec (mailingCountry val) ""); [contradiction|reflexivity].
  - intros Hcopy country Hhomecountry Hin.
    rewrite Hcopy in Hhome. simpl in Hhome.
    apply app_eq_nil in Hhome as [_ Hhome].
    apply app_eq_nil in Hhome as [Hrequired Hhome].
    apply app_eq_nil in Hhome as [_ Hhome].
    rewrite Hhomecountry, Hin in Hhome.
    apply app_eq_nil in Hhome as [Hhome Hforeignhome].
    destruct (Hcheck _ _ _ _ Hhome) as (p & c & Hp & Hc & Hvalid & Hprovince).
    exists p, c. repeat split; try assumption.
    intros Hne. eapply Hother; [exact Hforeignhome| |exact Hc|exact Hne].
    apply required_nil in Hrequired as [c' Hc'].
    rewrite Hhomecountry in Hc'.
    apply nonEmpty_Some in Hc' as [[= <-] Hc'].
    apply nonEmpty_Some. auto.
Qed.

End ContactInformationProperties.

(** ** Edit mode across the steps of the child flow *)

Section EditModeProperties.
Context {imports : Imported} {validators : Validators}.

(** Saving the state of an application does not touch the CSRF token. *)
Lemma csrfTokensMatch_saved (params : Params) (session : Session)
    (state : ApplyState) (formData : FormData) :
  csrfTokensMatch (<[sessionNameOf params := SvApplyState state]> session) formData
  = csrfTokensMatch session formData.
Proof.
  unfold csrfTokensMatch, sessionNameOf, getSessionName.
  rewrite lookup_insert_ne; [reflexivity|].
  rewrite append_String. discriminate.
Qed.

(** The state that a request finds after a save, when the guard lets it
    through. *)
Lemma loadGuarded_saved (l : Loader) (params : Params) (request : Request)
    (session : Session) (current new : ApplyState) :
  loadApplyState params session = Returned current →
  authorize l params request new = None →
  loadGuarded l params request (<[sessionNameOf params := SvApplyState new]> session)
  = Returned new.
Proof.
  intros Hload Hauthorize. unfold loadGuarded, sessionNameOf.
  rewrite (loadApplyState_saved _ _ _ _ Hload). simpl. rewrite Hauthorize. reflexivity.
Qed.

(** Where a successful submission of the contact-information step leads. *)
Lemma run_contact_information_redirect (svc : Services) (params : Params)
    (request : Request) (w : World) (state : ApplyState)
    (data : ContactInformationState) :
  loadGuarded ApplyChildState params request (w_session w) = Returned state →
  csrfTokensMatch (w_session w) (request_formData request) = true →
  personalInformationSchema (contactInformationFormData (request_formData request))
    = inr data →
  ∃ w',
    run svc (child_contact_information_action params request) w =
      (Returned (redirect (getPathById
         (if truthy (state !! "editMode")
          then "$lang/_public/apply/$id/child/review-adult-information"
          else "$lang/_public/apply/$id/child/communication-preference") params)),
       w').
Proof.
  intros Hguard Hcsrf Hschema.
  destruct (loadGuarded_Returned _ _ _ _ _ Hguard) as [Hload _].
  unfold child_contact_information_action, loadApplyChildState.
  simpl. rewrite Hguard. simpl. rewrite Hcsrf. simpl. rewrite Hschema.
  simpl. rewrite Hload. simpl.
  set (saved := {["contactInformation" := VContactInformation (copyMailingToHome data)]}
                ∪ state).
  set (w1 := withSession _ w).
  assert (loadApplyState params (w_session w1) = Returned saved) as Hload1
    by apply (loadApplyState_saved _ _ _ _ Hload).
  rewrite email_copyMailingToHome.
  unfold preferredMethod_is.
  destruct (communicationPreferences state) as [c|].
  - destruct (truthy_string (email data)
              && String.eqb (preferredMethod c) (COMMUNICATION_METHOD_EMAIL_ID getEnv)).
    + simpl. simpl in Hload1. rewrite Hload1. simpl.
      destruct (truthy (state !! "editMode")); simpl; eexists; reflexivity.
    + simpl. destruct (truthy (state !! "editMode")); simpl; eexists; reflexivity.
  - rewrite andb_false_r. simpl.
    destruct (truthy (state !! "editMode")); simpl; eexists; reflexivity.
Qed.

(** Once the communication-preference step has been submitted, a submission
    of the contact-information step leads to the review page, not on to the
    communication-preference step: the first action leaves the application
    in edit mode, which the second reads. *)
Theorem contact_information_returns_to_review_after_preferences (svc : Services)
    (params : Params) (preferenceRequest contactRequest : Request) (w : World)
    (state : ApplyState) (parsedData : CommunicationPreferencesState)
    (data : ContactInformationState) :
  loadGuarded ApplyChildState params preferenceRequest (w_session w) = Returned state →
  csrfTokensMatch (w_session w) (request_formData preferenceRequest) = true →
  formSchema state (communicationPreferenceFormData (request_formData preferenceRequest))
    = inr parsedData →
  authorize ApplyChildState params contactRequest
    ({[ "communicationPreferences" := VCommunicationPreferences parsedData;
        "editMode" := VBool true ]} ∪ state) = None →
  csrfTokensMatch (w_session w) (request_formData contactRequest) = true →
  personalInformationSchema (contactInformationFormData (request_formData contactRequest))
    = inr data →
  ∃ first w1 w2,
    run svc (child_communication_preference_action params preferenceRequest) w
      = (Returned first, w1)
    ∧ run svc (child_contact_information_action params contactRequest) w1
      = (Returned (redirect (getPathById
           "$lang/_public/apply/$id/child/review-adult-information" params)), w2).
Proof.
  intros Hguard Hcsrf Hschema Hauthorize Hcsrf2 Hschema2.
  destruct (loadGuarded_Returned _ _ _ _ _ Hguard) as [Hload _].
  pose proof (run_communication_preference svc _ _ _ _ Hguard Hcsrf) as Hrun.
  rewrite Hschema in Hrun.
  match type of Hrun with _ = (_, ?w0) => set (w1 := w0) in * end.
  destruct (run_contact_information_redirect svc params contactRequest w1
              ({[ "communicationPreferences" := VCommunicationPreferences parsedData;
                  "editMode" := VBool true ]} ∪ state) data) as [w2 Hrun2].
  - apply (loadGuarded_saved _ _ _ _ _ _ Hload Hauthorize).
  - subst w1. simpl. rewrite csrfTokensMatch_saved. exact Hcsrf2.
  - exact Hschema2.
  - do 3 eexists. split; [exact Hrun|].
    rewrite Hrun2.
    rewrite lookup_union_l'; rewrite lookup_insert_ne, lookup_singleton_eq by discriminate;
      [reflexivity|eauto].
Qed.




End EditModeProperties.

(** ** Sessions in Redis *)

Section SessionServiceProperties.
Import SessionService.
Context {redis : RedisImports}.

(** The storage draws its session id once, when it is created, and
    [createData] gives that id to every session: a second session is
    written over the first in Redis, and reading the first session's id
    returns the data of the second. The hypothesis is that Redis returns
    the value last set for a key. *)
Theorem sessions_share_one_redis_key (randomUUID : string)
    (data1 data2 : SessionData) (db : Redis) :
  (∀ key value EX db, redisService_get key (redisService_set key value EX db) = Some value) →
  let storage := createRedisSessionStorage randomUUID in
  let '(db1, id1) := createData storage data1 db in
  let '(db2, id2) := createData storage data2 db1 in
  id1 = randomUUID
  ∧ id2 = id1
  ∧ readData storage id1 db2 = Some (JSON_parse (JSON_stringify data2)).
Proof.
  intros Hget. simpl. rewrite Hget. auto.
Qed.

End SessionServiceProperties.

(** ** The letters page *)

Section LettersProperties.
Import Letters.
Context {imports : LettersImports}.

Lemma find_filter {A} (found kept : A → bool) (xs : list A) :
  (∀ x, found x = true → kept x = true) →
  find found (List.filter kept xs) = find found xs.
Proof.
  intros Hkept. induction xs as [|x xs IH]; simpl; [reflexivity|].
  destruct (found x) eqn:Hfound.
  - rewrite (Hkept x Hfound). simpl. rewrite Hfound. reflexivity.
  - destruct (kept x); simpl; [rewrite Hfound|]; exact IH.
Qed.

(** The letters page: the sort order is ascending only for the parameter
    value 'asc' and descending for anything else, never an error; the
    letter types sent to the page are those the letters use, and they are
    enough: every letter gets the name it would get from the full list of
    letter types. *)
Theorem letter_types_sent_name_every_letter (searchParams : list (string * string))
    (data : LoaderData) :
  loader searchParams = Returned data →
  (sortOrder data = asc ↔ formData_get searchParams "sort" = Some "asc")
  ∧ letters data = getLetterInfoByClientId getUserId "clientId" (sortOrder data)
  ∧ (∀ type, In type (letterTypes data) ↔
       In type getAllLetterTypes
       ∧ ∃ letter, In letter (letters data) ∧ name letter = code type)
  ∧ (∀ language letter, In letter (letters data) →
       letterName language (letterTypes data) letter
       = letterName language getAllLetterTypes letter).
Proof.
  unfold loader. destruct (featureEnabled "view-letters"); [|discriminate]. simpl.
  destruct handleSessionValidation; [discriminate|].
  intros [= <-]. simpl. split; [|split; [reflexivity|split]].
  - unfold orderEnumSchema_catch_desc.
    destruct (formData_get searchParams "sort") as [sort|]; [|split; discriminate].
    destruct (String.eqb_spec sort "asc") as [->|Hne]; split; try reflexivity;
      try discriminate.
    intros [= ->]. contradiction.
  - intros type. rewrite filter_In, existsb_exists.
    split; intros [Hin (letter & Hletter & Hname)]; (split; [exact Hin|]);
      exists letter; (split; [exact Hletter|]).
    + apply String.eqb_eq. exact Hname.
    + apply String.eqb_eq. exact Hname.
  - intros language letter Hin. unfold letterName.
    rewrite find_filter; [reflexivity|].
    intros type Hfound. apply existsb_exists. exists letter. split; [exact Hin|].
    apply String.eqb_eq in Hfound. apply String.eqb_eq. congruence.
Qed.

End LettersProperties.

(** ** The phone number of a user *)

Section UpdateInfoProperties.
Import UpdateInfo.

Lemma matchesAt_cons (atom : Atom) (pattern : list Atom) (s : string) :
  matchesAt (atom :: pattern) s = true ↔
  ∃ c rest, s = String c rest ∧ matchesAtom atom c = true
            ∧ matchesAt pattern rest = true.
Proof.
  destruct s as [|c rest]; simpl.
  - split; [discriminate|]. intros (c & rest & [=] & _).
  - rewrite andb_true_iff. split.
    + intros [Hatom Hrest]. eauto.
    + intros (c' & rest' & [= -> ->] & Hatom & Hrest). auto.
Qed.

Lemma append_empty (s : string) : "" ++ s = s.
Proof. reflexivity. Qed.

Lemma exec_spec (pattern : list Atom) (s : string) :
  exec pattern s = true ↔
  ∃ before rest, s = before ++ rest ∧ matchesAt pattern rest = true.
Proof.
  induction s as [|c s IH].
  - simpl. rewrite orb_false_r. split.
    + intros Hmatch. exists "", "". auto.
    + intros (before & rest & Hs & Hmatch).
      destruct before; [|rewrite append_String in Hs; discriminate Hs].
      rewrite append_empty in Hs. subst rest. exact Hmatch.
  - simpl. rewrite orb_true_iff, IH. split.
    + intros [Hmatch|(before & rest & -> & Hmatch)].
      * exists "", (String c s). auto.
      * exists (String c before), rest. auto.
    + intros (before & rest & Hs & Hmatch).
      destruct before as [|c' before].
      * left. rewrite append_empty in Hs. subst rest. exact Hmatch.
      * right. rewrite append_String in Hs. injection Hs as -> ->. eauto.
Qed.

Lemma digits_cons (n : nat) (c : Ascii.ascii) (s : string) :
  digits (S n) (String c s) ↔ isDigit c = true ∧ digits n s.
Proof.
  unfold digits. simpl. rewrite andb_true_iff. split.
  - intros [[= Hlength] [Hc Hs]]. auto.
  - intros [Hc [Hlength Hs]]. auto.
Qed.

Lemma digits_0 (s : string) : digits 0 s ↔ s = "".
Proof.
  unfold digits. destruct s; simpl; split; try discriminate; auto.
  - intros [[=] _].
Qed.

Lemma matchesAt_phoneNumberPattern (s : string) :
  matchesAt phoneNumberPattern s = true ↔
  ∃ a b c after,
    s = "(" ++ a ++ ") " ++ b ++ "-" ++ c ++ after
    ∧ digits 3 a ∧ digits 3 b ∧ digits 4 c.
Proof.
  unfold phoneNumberPattern. split.
  - intros Hmatch.
    repeat match type of Hmatch with
           | matchesAt (_ :: _) _ = true =>
               let c := fresh "c" in
               let Hc := fresh "Hc" in
               apply matchesAt_cons in Hmatch as (c & ? & -> & Hc & Hmatch);
               cbn [matchesAtom] in Hc; try apply Ascii.eqb_eq in Hc; try subst c
           end.
    match goal with
    | |- ∃ a b c after,
           String _ (String ?a1 (String ?a2 (String ?a3 (String _ (String _
             (String ?b1 (String ?b2 (String ?b3 (String _
               (String ?c1 (String ?c2 (String ?c3 (String ?c4 ?rest))))))))))))) = _ ∧ _ =>
        exists (String a1 (String a2 (String a3 ""))),
               (String b1 (String b2 (String b3 ""))),
               (String c1 (String c2 (String c3 (String c4 "")))), rest
    end.
    split; [reflexivity|].
    repeat rewrite digits_cons. repeat rewrite digits_0. tauto.
  - intros (a & b & c & after & -> & Ha & Hb & Hc).
    destruct a as [|a1 [|a2 [|a3 [|]]]]; try (destruct Ha as [Hlength _]; discriminate Hlength).
    destruct b as [|b1 [|b2 [|b3 [|]]]]; try (destruct Hb as [Hlength _]; discriminate Hlength).
    destruct c as [|c1 [|c2 [|c3 [|c4 [|]]]]]; try (destruct Hc as [Hlength _]; discriminate Hlength).
    repeat rewrite digits_cons in Ha. repeat rewrite digits_cons in Hb.
    repeat rewrite digits_cons in Hc.
    destruct Ha as (Ha1 & Ha2 & Ha3 & _), Hb as (Hb1 & Hb2 & Hb3 & _),
             Hc as (Hc1 & Hc2 & Hc3 & Hc4 & _).
    repeat (rewrite append_String || rewrite append_empty).
    cbn [matchesAt matchesAtom].
    rewrite Ha1, Ha2, Ha3, Hb1, Hb2, Hb3, Hc1, Hc2, Hc3, Hc4. reflexivity.
Qed.

Lemma isPhoneNumber_spec (val : string) :
  isPhoneNumber val = true ↔ containsPhoneNumber val.
Proof.
  unfold isPhoneNumber, containsPhoneNumber. rewrite exec_spec. split.
  - intros (before & rest & -> & Hmatch).
    apply matchesAt_phoneNumberPattern in Hmatch as (a & b & c & after & -> & Hdigits).
    exists before, a, b, c, after. auto.
  - intros (before & a & b & c & after & -> & Hdigits).
    exists before. eexists. split; [reflexivity|].
    apply matchesAt_phoneNumberPattern. exists a, b, c, after. auto.
Qed.

(** The phone number check of the update-info action is not anchored: the
    value passes when a phone number of the form (ddd) ddd-dddd occurs
    anywhere in it, and the whole value, with the text around the phone
    number, is what [updateUserInfo] is called with; a value without such an
    occurrence, or no value, is answered with the errors and no update. The
    value checked is that of the last form entry named phoneNumber. *)
Theorem update_info_looks_for_a_phone_number_anywhere (userId : string)
    (entries : FormData) :
  let formData := Object_fromEntries entries in
  (∀ phoneNumber,
     formData !! "phoneNumber" = Some phoneNumber →
     containsPhoneNumber phoneNumber →
     action userId entries
     = updateUserInfo_then_redirect userId phoneNumber "/update-info-success")
  ∧ (∀ phoneNumber,
       formData !! "phoneNumber" = Some phoneNumber →
       ¬ containsPhoneNumber phoneNumber →
       action userId entries
       = json_errors [issue_custom "phoneNumber" "Invalid phone number"] formData)
  ∧ (formData !! "phoneNumber" = None →
     action userId entries
     = json_errors [issue_invalid_type "phoneNumber" "Required"] formData)
  ∧ (∀ value,
       Object_fromEntries (entries ++ [("phoneNumber", value)]) !! "phoneNumber"
       = Some value).
Proof.
  intros formData. unfold action. fold formData.
  split; [|split; [|split]].
  - intros phoneNumber -> Hcontains.
    apply isPhoneNumber_spec in Hcontains as ->. reflexivity.
  - intros phoneNumber -> Hnot.
    destruct (isPhoneNumber phoneNumber) eqn:Hphone; [|reflexivity].
    apply isPhoneNumber_spec in Hphone. contradiction.
  - intros ->. reflexivity.
  - intros value. unfold Object_fromEntries. rewrite fold_left_app. simpl.
    apply lookup_insert_eq.
Qed.

End UpdateInfoProperties.

(** ** Access to governmental benefits *)

Section DentalBenefitsProperties.
Import DentalBenefits.
Context {validators : Validators}.

Lemma yesOrNo_yes (formData : FormData) (name : string) (answer : bool) :
  yesOrNo formData name = Some answer →
  (answer = true ↔ formData_get formData name = Some "yes").
Proof.
  unfold yesOrNo. destruct (formData_get formData name) as [v|]; [|discriminate].
  destruct (String.eqb_spec v "") as [->|_]; [discriminate|].
  intros [= <-]. destruct (String.eqb_spec v "yes") as [->|Hne]; split; try reflexivity;
    try discriminate.
  intros [= ->]. contradiction.
Qed.

(** The benefits that pass the two schemas follow the answers: an answer is
    'yes' exactly when the form says 'yes' (any other non-empty value counts
    as 'no'); with 'yes' the program is there, and for the provincial or
    territorial benefits the province too; with 'no' the program and the
    province are dropped, whatever the form carried for them. *)
Theorem benefit_programs_follow_the_answers (formData : FormData)
    (federal : FederalBenefitsState) (provincial : ProvincialTerritorialBenefitsState) :
  parseDentalBenefits formData = inr (federal, provincial) →
  (hasFederalBenefits federal = true ↔
     formData_get formData "hasFederalBenefits" = Some "yes")
  ∧ (if hasFederalBenefits federal
     then is_Some (nonEmpty (federalSocialProgram federal))
     else federalSocialProgram federal = None)
  ∧ (hasProvincialTerritorialBenefits provincial = true ↔
       formData_get formData "hasProvincialTerritorialBenefits" = Some "yes")
  ∧ (if hasProvincialTerritorialBenefits provincial
     then is_Some (nonEmpty (province provincial))
          ∧ is_Some (nonEmpty (provincialTerritorialSocialProgram provincial))
     else province provincial = None
          ∧ provincialTerritorialSocialProgram provincial = None).
Proof.
  unfold parseDentalBenefits, federalBenefitsSchema, provincialTerritorialBenefitsSchema.
  simpl.
  destruct (yesOrNo formData "hasFederalBenefits") as [fed|] eqn:Hfed; [|discriminate].
  destruct (yesOrNo formData "hasProvincialTerritorialBenefits") as [prov|] eqn:Hprov;
    [|destruct (if fed then _ else _); discriminate].
  pose proof (yesOrNo_yes _ _ _ Hfed) as Hfedyes.
  pose proof (yesOrNo_yes _ _ _ Hprov) as Hprovyes.
  destruct fed, prov; simpl.
  - unfold required.
    destruct (nonEmpty (trim <$> optional_field formData "federalSocialProgram"))
      eqn:Hprogram; [|discriminate].
    destruct (nonEmpty (trim <$> optional_field formData "province")) eqn:Hprovince;
      [|discriminate].
    destruct (nonEmpty (trim <$> optional_field formData
                          "provincialTerritorialSocialProgram")) eqn:Hprovprogram;
      [|discriminate].
    intros [= <- <-]. simpl. rewrite Hprogram, Hprovince, Hprovprogram. eauto 10.
  - unfold required.
    destruct (nonEmpty (trim <$> optional_field formData "federalSocialProgram"))
      eqn:Hprogram; [|discriminate].
    intros [= <- <-]. simpl. rewrite Hprogram. eauto 10.
  - unfold required.
    destruct (nonEmpty (trim <$> optional_field formData "province")) eqn:Hprovince;
      [|discriminate].
    destruct (nonEmpty (trim <$> optional_field formData
                          "provincialTerritorialSocialProgram")) eqn:Hprovprogram;
      [|discriminate].
    intros [= <- <-]. simpl. rewrite Hprovince, Hprovprogram. eauto 10.
  - intros [= <- <-]. simpl. auto.
Qed.

End DentalBenefitsProperties.

(** ** The two helpers of the adult-child flow together *)

Section AdultChildHelperProperties.
Context {imports : Imported}.

(** A state that [loadApplyAdultChildState] returns is never sent back to
    the type-of-application or the delegate step by
    [validateApplyAdultChildStateForReview]: the validation then depends on
    the tax filing and the date of birth alone. *)
Theorem loaded_state_is_validated_on_taxes_and_birth_only (params : Params)
    (request : Request) (session : Session) (state : ApplyState) :
  loadApplyAdultChildState params request session = Returned state →
  validateApplyAdultChildStateForReview params state =
    if is_undefined (state !! "taxFiling2023") then
      Thrown (ThrownResponse (redirect
        (getPathById "$lang+/_public+/apply+/$id+/adult-child/tax-filing" params)))
    else if negb (truthy (state !! "taxFiling2023")) then
      Thrown (ThrownResponse (redirect
        (getPathById "$lang+/_public+/apply+/$id+/adult-child/file-taxes" params)))
    else if is_undefined (state !! "dateOfBirth") then
      Thrown (ThrownResponse (redirect
        (getPathById "$lang+/_public+/apply+/$id+/adult-child/date-of-birth" params)))
    else Returned ().
Proof.
  unfold loadApplyAdultChildState.
  destruct (loadApplyState params session) as [applyState|e]; simpl; [|discriminate].
  destruct (typeOfApplication_is applyState "adult-child") eqn:Hflow; simpl;
    [|discriminate].
  intros Hreturned.
  assert (applyState = state) as ->.
  { destruct (truthy (applyState !! "submissionInfo")
              && negb (endsWith (request_pathname request) _)); [discriminate|].
    destruct (negb (truthy (applyState !! "submissionInfo")) && _);
      injection Hreturned as ->; reflexivity. }
  unfold validateApplyAdultChildStateForReview.
  assert (is_undefined (state !! "typeOfApplication") = false
          ∧ typeOfApplication_is state "delegate" = false) as [-> ->].
  { unfold typeOfApplication_is in *.
    destruct (state !! "typeOfApplication") as [[t| | | | |]|]; try discriminate.
    apply String.eqb_eq in Hflow as ->. split; reflexivity. }
  rewrite Hflow. reflexivity.
Qed.

End AdultChildHelperProperties.

(** ** The children summary of the adult-child flow *)

Section ChildrenSummaryProperties.
Context {imports : Imported}.

(** The children summary is guarded when it is shown and not when it is
    submitted: the loader answers with what [loadApplyAdultChildState]
    returns or throws for the session, whereas the action reads nothing of
    the application: whenever the CSRF token matches it redirects to the
    personal-information step and leaves the session alone, also for a
    session with no application, with an application of another flow, or
    with one that has been submitted. *)
Theorem children_summary_is_guarded_only_when_shown (svc : Services)
    (params : Params) (request : Request) (w : World) :
  csrfTokensMatch (w_session w) (request_formData request) = true →
  run svc (adult_child_children_action params request) w
  = (Returned (redirect (getPathById
       "$lang+/_public+/apply+/$id+/adult-child/personal-information" params)), w)
  ∧ run svc (adult_child_children_loader params request) w
    = (loadApplyAdultChildState params request (w_session w), w).
Proof.
  intros Hcsrf. split.
  - unfold adult_child_children_action. simpl. rewrite Hcsrf. reflexivity.
  - unfold adult_child_children_loader. simpl.
    destruct (loadApplyAdultChildState params request (w_session w)); reflexivity.
Qed.

End ChildrenSummaryProperties.

(** * The further properties on concrete inputs *)



(** A request whose email is a number. *)
Lemma malformed_code_requests_are_refused_witness :
  CodeRequestMock.requestCode Example.codes 5000 5000
    {[ "email" := SubscriptionApiMock.JNumber 42 ]}
  = Thrown (ThrownResponse (response "" 400)).
Proof.
  apply (malformed_code_requests_are_refused Example.codes 5000 5000
           {[ "email" := SubscriptionApiMock.JNumber 42 ]}).
  intros e. rewrite lookup_singleton_eq. discriminate.
Defined.




(** The communication-preference step submitted with the email method. *)
Lemma communication_preference_is_stored_in_edit_mode_witness :
  ∃ w' state',
    run Example.services
      (child_communication_preference_action (imports := Example.plain)
         (validators := Example.validators) Example.params
         Example.communicationPreference)
      (Example.worldWith Example.childState)
    = (Returned (redirect "/en/apply/42/child/review-child-information"), w')
    ∧ loadApplyState Example.params (w_session w')
      = Returned state'
    ∧ communicationPreferences state' = Some Example.storedPreferences
    ∧ state' !! "editMode" = Some (VBool true).
Proof.
  pose proof (communication_preference_is_stored_in_edit_mode (imports := Example.plain)
                (validators := Example.validators) Example.services Example.params
                Example.communicationPreference (Example.worldWith Example.childState)
                Example.childState eq_refl eq_refl)
    as (w' & state' & Hrun & Hload & Hpreferences & Hedit & _).
  exists w', state'. split; [exact Hrun|]. split; [exact Hload|].
  split; [exact Hpreferences|exact Hedit].
Defined.

(** The preferences of that form: the method is the email method, and the
    email is one. *)
Lemma email_method_needs_a_valid_email_witness :
  ∃ entered,
    cp_email Example.storedPreferences = Some entered
    ∧ isEmail (Validators := Example.validators) entered = true.
Proof.
  destruct (email_method_needs_a_valid_email (imports := Example.plain)
              (validators := Example.validators) Example.childState
              (communicationPreferenceFormData Example.preferenceForm)
              Example.storedPreferences eq_refl)
    as (_ & _ & Hemail).
  destruct (Hemail eq_refl) as (entered & Hentered & _ & Hvalid & _).
  exists entered. split; [exact Hentered|exact Hvalid].
Defined.

(** A contact form for an address in Canada that asks for the mailing
    address to be copied. *)
Lemma saved_contact_information_has_both_addresses_witness :
  ∃ answer w',
    run Example.services
      (child_contact_information_action (imports := Example.withSourceSchema)
         Example.params
         (Example.requestTo "/en/apply/42/child/contact-information"
            Example.canadianContactForm))
      (Example.worldWith Example.childState)
    = (Returned answer, w')
    ∧ ((∃ errors, answer = json errors ∧ w' = Example.worldWith Example.childState)
       ∨ (∃ state' c,
            loadApplyState Example.params
              (w_session w') = Returned state'
            ∧ contactInformation state' = Some c
            ∧ hasBothAddresses c)).
Proof.
  apply (saved_contact_information_has_both_addresses
           (imports := Example.withSourceSchema) (validators := Example.validators)
           Example.services Example.params
           (Example.requestTo "/en/apply/42/child/contact-information"
              Example.canadianContactForm)
           (Example.worldWith Example.childState) Example.childState).
  - intros data. reflexivity.
  - reflexivity.
  - reflexivity.
Defined.

(** A contact form whose email is a space: it passes the schema with a
    confirmation email that is not an email. *)
Lemma contact_emails_are_checked_together_witness :
  personalInformationSchema_safeParse (validators := Example.validators)
    (contactInformationFormData Example.blankEmailContactForm)
  = inr (personalInformationSchema_transform (validators := Example.validators)
           (personalInformationSchema_trimmed (validators := Example.validators)
              (contactInformationFormData Example.blankEmailContactForm)))
  ∧ ((∃ entered,
        Some "" = Some entered ∧ entered ≠ ""
        ∧ isEmail (Validators := Example.validators) entered = true
        ∧ Some "not an email" = Some entered)
     ∨ (Some "" = @None string ∧ nonEmpty (Some "not an email") = None)
     ∨ Some "" = Some "").
Proof.
  split; [reflexivity|].
  exact (contact_emails_are_checked_together (validators := Example.validators)
           (contactInformationFormData Example.blankEmailContactForm) _ eq_refl).
Defined.

(** The postal code of the Canadian contact form. *)
Lemma accepted_postal_codes_fit_the_country_witness :
  ∃ province postalCode,
    nonEmpty (Some "ON") = Some province
    ∧ nonEmpty (Some "K1A 0B1") = Some postalCode
    ∧ isValidPostalCode (Validators := Example.validators) "CAN" postalCode = true.
Proof.
  destruct (accepted_postal_codes_fit_the_country (validators := Example.validators)
              (contactInformationFormData Example.canadianContactForm) _ eq_refl)
    as (Hmailing & _).
  destruct (Hmailing eq_refl) as (province & postalCode & Hprovince & Hcode & Hvalid & _).
  exists province, postalCode.
  split; [exact Hprovince|]. split; [exact Hcode|exact Hvalid].
Defined.

(** The communication-preference step, then the contact-information
    step. *)
Lemma contact_information_returns_to_review_after_preferences_witness :
  ∃ first w1 w2,
    run Example.services
      (child_communication_preference_action (imports := Example.plain)
         (validators := Example.validators) Example.params
         Example.communicationPreference)
      (Example.worldWith Example.childState)
    = (Returned first, w1)
    ∧ run Example.services
        (child_contact_information_action (imports := Example.plain) Example.params
           Example.contactInformation) w1
      = (Returned (redirect "/en/apply/42/child/review-adult-information"), w2).
Proof.
  apply (contact_information_returns_to_review_after_preferences
           (imports := Example.plain) (validators := Example.validators)
           Example.services Example.params Example.communicationPreference
           Example.contactInformation (Example.worldWith Example.childState)
           Example.childState Example.storedPreferences
           (contactInformationFormData Example.contactForm));
    reflexivity.
Defined.


(** Two sessions created by one storage. *)
Lemma sessions_share_one_redis_key_witness :
  SessionService.readData (redis := Example.redis)
    (SessionService.createRedisSessionStorage (redis := Example.redis)
       "00000000-0000-0000-0000-000000000000")
    "00000000-0000-0000-0000-000000000000"
    (<["00000000-0000-0000-0000-000000000000" := "the session of the second visitor"]>
       (<["00000000-0000-0000-0000-000000000000" := "the session of the first visitor"]>
          ∅))
  = Some "the session of the second visitor".
Proof.
  apply (sessions_share_one_redis_key (redis := Example.redis)
           "00000000-0000-0000-0000-000000000000"
           "the session of the first visitor" "the session of the second visitor" ∅).
  intros key value EX db. apply lookup_insert_eq.
Defined.

(** The letters page asked for the order 'ASC': the order is descending, and
    a letter has the name of its type. *)
Lemma letter_types_sent_name_every_letter_witness :
  Letters.letterName (imports := Example.lettersImports) "fr"
    [Example.letterType "ACC" "Acceptance" "Acceptation"] (Example.letter "1" "ACC")
  = Letters.letterName (imports := Example.lettersImports) "fr"
      (Letters.getAllLetterTypes (LettersImports := Example.lettersImports))
      (Example.letter "1" "ACC").
Proof.
  apply (proj2 (proj2 (proj2
           (letter_types_sent_name_every_letter (imports := Example.lettersImports)
              [("sort", "ASC")] _ eq_refl)))).
  right. left. reflexivity.
Defined.

(** A text with a phone number in it, in the second entry named
    phoneNumber. *)
Lemma update_info_looks_for_a_phone_number_anywhere_witness :
  UpdateInfo.action "user-1"
    [("phoneNumber", "(613) 555-0123"); ("phoneNumber", "call (613) 555-0123 after 5")]
  = UpdateInfo.updateUserInfo_then_redirect "user-1" "call (613) 555-0123 after 5"
      "/update-info-success".
Proof.
  apply (proj1 (update_info_looks_for_a_phone_number_anywhere "user-1"
                  [("phoneNumber", "(613) 555-0123");
                   ("phoneNumber", "call (613) 555-0123 after 5")])).
  - reflexivity.
  - exists "call ", "613", "555", "0123", " after 5".
    split; [reflexivity|]. repeat split.
Defined.

(** A form that says 'no' to federal benefits and still carries a program. *)
Lemma benefit_programs_follow_the_answers_witness :
  DentalBenefits.federalSocialProgram
    {| DentalBenefits.hasFederalBenefits := false;
       DentalBenefits.federalSocialProgram := None |} = None
  ∧ formData_get Example.benefitsForm "federalSocialProgram" = Some "program-1".
Proof.
  split; [|reflexivity].
  destruct (benefit_programs_follow_the_answers (validators := Example.validators)
              Example.benefitsForm _ _ eq_refl) as (_ & Hprogram & _).
  exact Hprogram.
Defined.

(** The children summary of a submitted application: shown, it redirects to
    the confirmation page; submitted, it goes on to the personal
    information. *)
Lemma children_summary_is_guarded_only_when_shown_witness :
  run Example.services
    (adult_child_children_action (imports := Example.plain) Example.params
       (Example.requestTo "/en/apply/42/adult-child/children" [("_csrf", "token")]))
    (Example.worldWith Example.submittedAdultChildState)
  = (Returned (redirect "/en/apply/42/adult-child/personal-information"),
     Example.worldWith Example.submittedAdultChildState)
  ∧ run Example.services
      (adult_child_children_loader (imports := Example.plain) Example.params
         (Example.requestTo "/en/apply/42/adult-child/children" [("_csrf", "token")]))
      (Example.worldWith Example.submittedAdultChildState)
    = (Thrown (ThrownResponse (redirect "/en/apply/42/adult-child/confirmation")),
       Example.worldWith Example.submittedAdultChildState).
Proof.
  apply (children_summary_is_guarded_only_when_shown (imports := Example.plain)
           Example.services Example.params
           (Example.requestTo "/en/apply/42/adult-child/children" [("_csrf", "token")])
           (Example.worldWith Example.submittedAdultChildState)).
  reflexivity.
Defined.

(** The adult-child application with taxes filed and a date of birth, loaded
    for the tax-filing page, passes the validation. *)
Lemma loaded_state_is_validated_on_taxes_and_birth_only_witness :
  validateApplyAdultChildStateForReview (imports := Example.plain) Example.params
    Example.adultChildState
  = Returned ().
Proof.
  apply (loaded_state_is_validated_on_taxes_and_birth_only (imports := Example.plain)
           Example.params
           (Example.requestTo "/en/apply/42/adult-child/tax-filing" [])
           (Example.sessionWith Example.adultChildState) Example.adultChildState).
  reflexivity.
Defined.
